(** * MonitorFor4: error-state tracker, metrics aggregator and check orchestrator

    A shallow embedding of the JavaScript sources
      - [src/config/config.js]            (module [Config])
      - [src/utils/errorHandler.js]       (module [ErrorHandler])
      - [src/services/for4Service.js]     (module [For4Service])
      - [src/utils/logger.js], which holds the logger, the data generator
        with [isWithinMonitoringHours] (module [DataGenerator]) and the
        performance tracker (module [PerformanceTracker])
      - the monitor class with [runHealthCheck] (module [Monitor])
    followed by the properties the specification states about them.

    Conventions of the embedding.
      - JavaScript numbers that hold timestamps, durations, counters and HTTP
        statuses are integers well below 2^52, so they are modelled as [Z]:
        sums, differences, comparisons and [Math.round] of a quotient of two
        of them are exact in binary64. The averages the trend compares are
        quotients of two such integers: [calculateRecentAverage] gives the
        pair as a rational, and the trend divides, subtracts, multiplies and
        compares in binary64, as the code does. The index of a percentile,
        [Math.ceil ((p / 100) * n)], is sensitive to the rounding of [p / 100]
        and is computed in binary64 as well.
      - [Date.now()] and [moment()] are reads of the wall clock: every read is
        an explicit argument of the function that performs it.
      - An exception is a [Throw] completion; mutable objects are threaded as
        explicit state.
      - Writes of the state files and log lines have no effect on what the
        functions return or on the state in memory, and are left out. *)

From Stdlib Require Import ZArith QArith Qround Qabs Lia Lqa Ascii String.
From Stdlib Require PrimFloat FloatOps SpecFloat Uint63.
From stdpp Require Import base gmap list strings fin_maps sorting.

Local Open Scope string_scope.
Local Open Scope Z_scope.

(* ===================================================================== *)
(** ** JavaScript primitives used by the sources *)
(* ===================================================================== *)

Module JS.

(** Values that can sit in a field of a parsed JSON response. *)
Inductive value :=
| VUndefined
| VNull
| VBool (b : bool)
| VNum (n : Z)
| VStr (s : string)
| VObj.

(** [ToBoolean]: what [!v] and [if (v)] test. *)
Definition truthy (v : value) : bool :=
  match v with
  | VUndefined | VNull => false
  | VBool b => b
  | VNum n => negb (n =? 0)
  | VStr s => negb (String.eqb s "")
  | VObj => true
  end.

(** A number-or-null slot ([null], [undefined] and [NaN] are [None]):
    truthy exactly when it holds a non-zero number. *)
Definition truthy_num (o : option Z) : bool :=
  match o with
  | None => false
  | Some n => negb (n =? 0)
  end.

(** Completion of a call: a returned value or a thrown one. *)
Inductive completion (E A : Type) :=
| Normal (a : A)
| Throw (e : E).
Arguments Normal {E A} a.
Arguments Throw {E A} e.

(** Stateful, possibly throwing computations: the state survives a throw,
    as mutations of a JavaScript object do. *)
Definition M (S E A : Type) : Type := S -> completion E A * S.

Definition ret {S E A} (a : A) : M S E A := fun s => (Normal a, s).
Definition throw {S E A} (e : E) : M S E A := fun s => (Throw e, s).
Definition bind {S E A B} (m : M S E A) (k : A -> M S E B) : M S E B :=
  fun s => match m s with
           | (Normal a, s') => k a s'
           | (Throw e, s') => (Throw e, s')
           end.
Definition get {S E} : M S E S := fun s => (Normal s, s).
Definition modify {S E} (f : S -> S) : M S E unit := fun s => (Normal tt, f s).
Definition of_completion {S E A} (c : completion E A) : M S E A := fun s => (c, s).

(** [try { body } catch (e) { handler e }] *)
Definition try_catch {S E A} (body : M S E A) (handler : E -> M S E A) : M S E A :=
  fun s => match body s with
           | (Normal a, s') => (Normal a, s')
           | (Throw e, s') => handler e s'
           end.

(** Run a computation on a component of a larger state. *)
Definition zoom {S T E A} (proj : T -> S) (inj : S -> T -> T) (m : M S E A) : M T E A :=
  fun t => let '(r, s') := m (proj t) in (r, inj s' t).

(** [String.prototype.includes]. *)
Fixpoint includes (hay needle : string) : bool :=
  String.prefix needle hay
  || match hay with
     | EmptyString => false
     | String _ rest => includes rest needle
     end.

(** [Array.prototype.join]. *)
Fixpoint join (sep : string) (l : list string) : string :=
  match l with
  | [] => ""
  | [x] => x
  | x :: rest => String.append x (String.append sep (join sep rest))
  end.

(** [Array.prototype.slice(-k)] for [k >= 0]: the last [k] elements; [-0] is
    [0], so [slice(-0)] is a copy of the whole array. *)
Definition slice_last {A} (k : nat) (l : list A) : list A :=
  match k with
  | O => l
  | _ => drop (length l - k)%nat l
  end.

(** [Array.prototype.slice(0, k)]. *)
Definition slice_first {A} (k : nat) (l : list A) : list A := take k l.

(** [Math.round (a / b)] for an integer [a] and a positive integer [b]:
    the nearest integer, halves towards plus infinity. *)
Definition round_div (a b : Z) : Z := (2 * a + b) / (2 * b).

(** The ceiling of the exact quotient [a / b], for a positive [b]. *)
Definition ceil_div (a b : Z) : Z := - ((- a) / b).

(** The double of a small integer. *)
Definition double (z : Z) : PrimFloat.float :=
  if z <? 0 then PrimFloat.opp (PrimFloat.of_uint63 (Uint63.of_Z (- z)))
  else PrimFloat.of_uint63 (Uint63.of_Z z).

(** [Math.ceil (x)] of a finite double; [None] for [NaN] and the infinities. *)
Definition Math_ceil (x : PrimFloat.float) : option Z :=
  match FloatOps.Prim2SF x with
  | SpecFloat.S754_zero _ => Some 0
  | SpecFloat.S754_finite s m e =>
      let v := if s then Z.neg m else Z.pos m in
      Some (if 0 <=? e then v * 2 ^ e else - ((- v) / 2 ^ (- e)))
  | _ => None
  end.

(** The quotient [a / b] of two integral doubles, given as the rational
    [a # b]. *)
Definition quotient (q : Q) : PrimFloat.float :=
  PrimFloat.div (double (Qnum q)) (double (Z.pos (Qden q))).

(** The rational a finite double is; 0 for [NaN] and the infinities. *)
Definition rational (x : PrimFloat.float) : Q :=
  match FloatOps.Prim2SF x with
  | SpecFloat.S754_finite s m e =>
      let v := if s then Z.neg m else Z.pos m in
      if 0 <=? e then inject_Z (v * 2 ^ e) else Qmake v (Z.to_pos (2 ^ (- e)))
  | _ => 0%Q
  end.

(** [parseInt (s)] with no radix: leading white space, an optional sign, a
    [0x] or [0X] prefix that selects base 16, then the longest run of
    digits of the base; [None] is [NaN]. A string is the UTF-8 bytes of the
    text. The integer read is the result itself below 2^53. *)
Definition digit_of (radix : Z) (c : ascii) : option Z :=
  let n := Z.of_nat (nat_of_ascii c) in
  let d := if (48 <=? n) && (n <=? 57) then n - 48
           else if (97 <=? n) && (n <=? 122) then n - 87
           else if (65 <=? n) && (n <=? 90) then n - 55
           else radix in
  if d <? radix then Some d else None.

Fixpoint parse_digits (radix : Z) (acc : option Z) (s : string) : option Z :=
  match s with
  | EmptyString => acc
  | String c rest =>
      match digit_of radix c with
      | Some d => parse_digits radix (Some (radix * default 0 acc + d)) rest
      | None => acc
      end
  end.

(** White space and line terminators of one byte: TAB, LF, VT, FF, CR and
    the space. *)
Definition blank1 (a : Z) : bool :=
  ((9 <=? a) && (a <=? 13)) || (a =? 32).

(** Of two bytes: U+00A0. *)
Definition blank2 (a b : Z) : bool := (a =? 194) && (b =? 160).

(** Of three bytes: U+1680, U+2000 to U+200A, U+2028, U+2029, U+202F,
    U+205F, U+3000 and U+FEFF. *)
Definition blank3 (a b c : Z) : bool :=
  ((a =? 225) && (b =? 154) && (c =? 128))
  || ((a =? 226) && (b =? 128)
      && (((128 <=? c) && (c <=? 138)) || (c =? 168) || (c =? 169) || (c =? 175)))
  || ((a =? 226) && (b =? 129) && (c =? 159))
  || ((a =? 227) && (b =? 128) && (c =? 128))
  || ((a =? 239) && (b =? 187) && (c =? 191)).

Fixpoint skip_blanks (s : string) : string :=
  match s with
  | String c1 rest1 =>
      let a := Z.of_nat (nat_of_ascii c1) in
      if blank1 a then skip_blanks rest1
      else
        match rest1 with
        | String c2 rest2 =>
            let b := Z.of_nat (nat_of_ascii c2) in
            if blank2 a b then skip_blanks rest2
            else
              match rest2 with
              | String c3 rest3 =>
                  if blank3 a b (Z.of_nat (nat_of_ascii c3))
                  then skip_blanks rest3 else s
              | EmptyString => s
              end
        | EmptyString => s
        end
  | EmptyString => s
  end.

(** The digits after the sign. *)
Definition parse_unsigned (s : string) : option Z :=
  match s with
  | String "0" (String "x" rest) | String "0" (String "X" rest) =>
      parse_digits 16 None rest
  | _ => parse_digits 10 None s
  end.

Definition parseInt (s : string) : option Z :=
  match skip_blanks s with
  | String "-" rest => Z.opp <$> parse_unsigned rest
  | String "+" rest => parse_unsigned rest
  | t => parse_unsigned t
  end.

End JS.

Notation "'let*' x ':=' m 'in' k" := (JS.bind m (fun x => k))
(at level 10, x name, m at level 100, k at level 200, only parsing).

(* ===================================================================== *)
(** ** src/config/config.js *)
(* ===================================================================== *)

Module Config.

(** The environment variables the monitor section reads; [None] is an
    unset variable. *)
Record env := {
  NOTIFICATION_COOLDOWN_MINUTES : option string;
  MONITOR_START_HOUR : option string;
  MONITOR_END_HOUR : option string
}.

Record monitor := {
  notificationCooldownMinutes : Z;
  startHour : option Z;
  endHour : option Z
}.

(** [parseInt(process.env.X) || d] *)
Definition parse_or (v : option string) (d : Z) : Z :=
  match v ≫= JS.parseInt with
  | Some n => if n =? 0 then d else n
  | None => d
  end.

(** [process.env.X ? parseInt(process.env.X) : null]; the empty string is
    falsy, and a [NaN] result is kept as a falsy [None]. *)
Definition parse_hour (v : option string) : option Z :=
  match v with
  | Some s => if String.eqb s "" then None else JS.parseInt s
  | None => None
  end.

Definition load (e : env) : monitor :=
  {| notificationCooldownMinutes := parse_or (NOTIFICATION_COOLDOWN_MINUTES e) 30;
     startHour := parse_hour (MONITOR_START_HOUR e);
     endHour := parse_hour (MONITOR_END_HOUR e) |}.

Definition unset : env :=
  {| NOTIFICATION_COOLDOWN_MINUTES := None;
     MONITOR_START_HOUR := None;
     MONITOR_END_HOUR := None |}.

End Config.

(* ===================================================================== *)
(** ** Error objects: what the probe throws and the classifier reads *)
(* ===================================================================== *)

Module ErrorObject.

(** [error.response] of an HTTP failure. *)
Record response := {
  status : option Z;             (* [undefined] when the field is absent *)
  data_message : option string   (* [response.data.message] *)
}.

Inductive proto := PlainObject | ErrorProto | TypeErrorProto.

(** The ad hoc fields the sources read or write on an error. The [message]
    of an object built by [new Error (m)] is an own property that is not
    enumerable; on a plain object, or where a library assigns it on a fresh
    object, it is enumerable. *)
Record t := {
  proto_of : proto;
  code : option string;
  message : option string;
  message_enumerable : bool;
  response_of : option response;
  type : option string;
  missingFields : list string;
  trackingId : option string;
  isFor4Error : bool
}.

(** [new Error (m)] *)
Definition new_Error (m : string) : t :=
  {| proto_of := ErrorProto; code := None; message := Some m;
     message_enumerable := false; response_of := None; type := None;
     missingFields := []; trackingId := None; isFor4Error := false |}.

(** The [TypeError] the runtime raises on a property read of [undefined]. *)
Definition TypeError (m : string) : t :=
  {| proto_of := TypeErrorProto; code := None; message := Some m;
     message_enumerable := false; response_of := None; type := None;
     missingFields := []; trackingId := None; isFor4Error := false |}.

(** [{ ...error, trackingId, isFor4Error: true }]: a plain object with the
    own enumerable properties of [error], then the two named ones. *)
Definition spread_with (error : t) (tid : string) : t :=
  {| proto_of := PlainObject;
     code := code error;
     message := if message_enumerable error then message error else None;
     message_enumerable := true;
     response_of := response_of error;
     type := type error;
     missingFields := missingFields error;
     trackingId := Some tid;
     isFor4Error := true |}.

End ErrorObject.

Abbreviation thrown := ErrorObject.t.

(* ===================================================================== *)
(** ** src/utils/errorHandler.js *)
(* ===================================================================== *)

Module ErrorHandler.
Import ErrorObject.

Inductive ErrorTypes :=
| NETWORK_ERROR
| TIMEOUT_ERROR
| AUTH_ERROR
| API_ERROR
| INVALID_RESPONSE
| NO_PIX_CODE
| UNKNOWN_ERROR.

#[global] Instance ErrorTypes_eq_dec : EqDecision ErrorTypes.
Proof. solve_decision. Defined.

Definition ErrorTypes_code (k : ErrorTypes) : nat :=
  match k with
  | NETWORK_ERROR => 0 | TIMEOUT_ERROR => 1 | AUTH_ERROR => 2 | API_ERROR => 3
  | INVALID_RESPONSE => 4 | NO_PIX_CODE => 5 | UNKNOWN_ERROR => 6
  end%nat.

Definition ErrorTypes_decode (n : nat) : ErrorTypes :=
  match n with
  | 0 => NETWORK_ERROR | 1 => TIMEOUT_ERROR | 2 => AUTH_ERROR | 3 => API_ERROR
  | 4 => INVALID_RESPONSE | 5 => NO_PIX_CODE | _ => UNKNOWN_ERROR
  end%nat.

#[global] Instance ErrorTypes_countable : Countable ErrorTypes.
Proof.
  apply (inj_countable' ErrorTypes_code ErrorTypes_decode).
  intros []; reflexivity.
Defined.

(** The string each member of [ErrorTypes] stands for. *)
Definition ErrorTypes_name (k : ErrorTypes) : string :=
  match k with
  | NETWORK_ERROR => "NETWORK_ERROR"
  | TIMEOUT_ERROR => "TIMEOUT_ERROR"
  | AUTH_ERROR => "AUTH_ERROR"
  | API_ERROR => "API_ERROR"
  | INVALID_RESPONSE => "INVALID_RESPONSE"
  | NO_PIX_CODE => "NO_PIX_CODE"
  | UNKNOWN_ERROR => "UNKNOWN_ERROR"
  end.

(** One entry of [this.errorState]. *)
Record entry := {
  count : Z;
  firstOccurrence : Z;
  lastOccurrence : Z;
  lastNotification : option Z   (* [null] until the first notification *)
}.

Definition set_count (c : Z) (e : entry) : entry :=
  {| count := c; firstOccurrence := firstOccurrence e;
     lastOccurrence := lastOccurrence e; lastNotification := lastNotification e |}.
Definition set_lastOccurrence (t : Z) (e : entry) : entry :=
  {| count := count e; firstOccurrence := firstOccurrence e;
     lastOccurrence := t; lastNotification := lastNotification e |}.
Definition set_lastNotification (t : Z) (e : entry) : entry :=
  {| count := count e; firstOccurrence := firstOccurrence e;
     lastOccurrence := lastOccurrence e; lastNotification := Some t |}.

(** [this.errorState]: an object keyed by error type. *)
Abbreviation state := (gmap ErrorTypes entry).

Definition code_is (error : ErrorObject.t) (c : string) : bool :=
  match code error with
  | Some c' => String.eqb c' c
  | None => false
  end.

(** [classifyError (error)]. Reading [error.message.includes] throws a
    [TypeError] when [error.message] is [undefined]; [||] evaluates it only
    when the code is not [ECONNABORTED]. Every comparison with an
    [undefined] status is false. *)
Definition classifyError (error : ErrorObject.t) : JS.completion thrown ErrorTypes :=
  let timeout :=
    if code_is error "ECONNABORTED" then JS.Normal true
    else match message error with
         | Some m => JS.Normal (JS.includes m "timeout")
         | None => JS.Throw (TypeError "Cannot read properties of undefined (reading 'includes')")
         end in
  match timeout with
  | JS.Throw e => JS.Throw e
  | JS.Normal true => JS.Normal TIMEOUT_ERROR
  | JS.Normal false =>
      if code_is error "ENOTFOUND" || code_is error "ECONNREFUSED"
      then JS.Normal NETWORK_ERROR
      else
        match response_of error with
        | Some r =>
            match status r with
            | Some st =>
                if (st =? 401) || (st =? 403) then JS.Normal AUTH_ERROR
                else if (400 <=? st) && (st <? 500) then JS.Normal API_ERROR
                else if 500 <=? st then JS.Normal API_ERROR
                else JS.Normal UNKNOWN_ERROR
            | None => JS.Normal UNKNOWN_ERROR
            end
        | None => JS.Normal UNKNOWN_ERROR
        end
  end.

(** [config.monitor.notificationCooldownMinutes * 60 * 1000] *)
Definition cooldownMs (cfg : Config.monitor) : Z :=
  Config.notificationCooldownMinutes cfg * 60 * 1000.

(** [shouldSendNotification (errorType)]; [clock] is its own [Date.now()]. *)
Definition shouldSendNotification (cfg : Config.monitor) (errorType : ErrorTypes)
    (clock : Z) (errorState : state) : bool :=
  match errorState !! errorType with
  | None => true
  | Some st =>
      if negb (JS.truthy_num (lastNotification st)) then true
      else
        let timeSinceLastNotification := clock - default 0 (lastNotification st) in
        cooldownMs cfg <=? timeSinceLastNotification
  end.

Record context := { ctx_trackingId : option string }.

(** What [formatErrorMessage] renders, field by field: the classified type,
    the tracking id (or N/A), and the statistics block when the type has an
    entry. The text around these values is constant. *)
Record alert := {
  alert_type : ErrorTypes;
  alert_trackingId : string;
  alert_statistics : option (Z * Z)   (* occurrences, first occurrence *)
}.

Definition formatErrorMessage (error : ErrorObject.t) (ctx : context)
    : JS.M state thrown alert :=
  let* errorType := JS.of_completion (classifyError error) in
  let* errorState := JS.get in
  JS.ret {| alert_type := errorType;
            alert_trackingId :=
              match ctx_trackingId ctx with
              | Some tid => if String.eqb tid "" then "N/A" else tid
              | None => "N/A"
              end;
            alert_statistics :=
              (fun st => (if count st =? 0 then 1 else count st, firstOccurrence st))
                <$> errorState !! errorType |}.

Record handled := {
  h_type : ErrorTypes;
  h_message : alert;
  shouldNotify : bool;
  errorCount : Z
}.

(** [handleError (error, context)]; [now] is the [Date.now()] it reads
    first, [clock] the one [shouldSendNotification] reads afterwards. *)
Definition handleError (cfg : Config.monitor) (error : ErrorObject.t) (ctx : context)
    (now clock : Z) : JS.M state thrown handled :=
  let* errorType := JS.of_completion (classifyError error) in
  let* _ := JS.modify (fun errorState : state =>
              match errorState !! errorType with
              | Some _ => errorState
              | None => <[errorType := {| count := 0; firstOccurrence := now;
                                          lastOccurrence := now;
                                          lastNotification := None |}]> errorState
              end) in
  let* _ := JS.modify (fun errorState : state =>
              alter (fun st => set_lastOccurrence now (set_count (count st + 1) st))
                    errorType errorState) in
  let* errorState := JS.get in
  let notify := shouldSendNotification cfg errorType clock errorState in
  let* _ := JS.modify (fun errorState : state =>
              if notify then alter (set_lastNotification now) errorType errorState
              else errorState) in
  let* msg := formatErrorMessage error ctx in
  let* errorState := JS.get in
  JS.ret {| h_type := errorType;
            h_message := msg;
            shouldNotify := notify;
            errorCount := default 0 (count <$> errorState !! errorType) |}.

(** [clearErrorState (errorType = null)] *)
Definition clearErrorState (errorType : option ErrorTypes) : JS.M state thrown unit :=
  JS.modify (fun errorState : state =>
    match errorType with
    | Some k => delete k errorState
    | None => ∅
    end).

(** The context [notifyRecovery] passes. *)
Record recoveryContext := {
  rc_trackingId : string;
  rc_pixCode : JS.value;
  rc_responseTime : Z
}.

(** What [formatRecoveryMessage] renders. *)
Record recovery := {
  rec_trackingId : string;
  rec_pixCode : bool;             (* the line shown when a code came back *)
  rec_responseTime : option Z     (* the line shown for a non-zero time *)
}.

(** [formatRecoveryMessage (context)] *)
Definition formatRecoveryMessage (ctx : recoveryContext) : recovery :=
  {| rec_trackingId := if String.eqb (rc_trackingId ctx) "" then "N/A"
                       else rc_trackingId ctx;
     rec_pixCode := JS.truthy (rc_pixCode ctx);
     rec_responseTime := if rc_responseTime ctx =? 0 then None
                         else Some (rc_responseTime ctx) |}.

(** The consecutive count of a kind: the count of its entry, 0 without one. *)
Definition consecutiveCount (errorState : state) (k : ErrorTypes) : Z :=
  default 0 (count <$> errorState !! k).

(** The decision of [shouldSendNotification] as a function of the last
    notification time it finds ([0] is as falsy as [null]). *)
Definition due (cfg : Config.monitor) (clock : Z) (last : option Z) : bool :=
  match last with
  | None => true
  | Some t => (t =? 0) || (cooldownMs cfg <=? clock - t)
  end.

(** The time of the last notification of a kind, if any. *)
Definition lastNotifiedAt (errorState : state) (k : ErrorTypes) : option Z :=
  errorState !! k ≫= lastNotification.

End ErrorHandler.

(* ===================================================================== *)
(** ** src/services/for4Service.js *)
(* ===================================================================== *)

Module For4Service.
Import ErrorObject.

(** [response.data] of the purchase call. *)
Record pixData := {
  id : JS.value;
  status_of : JS.value;
  pixCode : JS.value;
  pixQrCode : JS.value
}.

(** What the HTTP client hands back once its interceptor has stamped the
    duration. *)
Record httpResponse := {
  data : pixData;
  responseTime : Z
}.

Record result := {
  success : bool;
  r_data : pixData;
  r_responseTime : Z
}.

Definition requiredFields : list string := ["id"; "status"; "pixCode"; "pixQrCode"].

(** [data[field]] *)
Definition field (d : pixData) (name : string) : JS.value :=
  if String.eqb name "id" then id d
  else if String.eqb name "status" then status_of d
  else if String.eqb name "pixCode" then pixCode d
  else if String.eqb name "pixQrCode" then pixQrCode d
  else JS.VUndefined.

(** [validatePixResponse (data)] *)
Definition validatePixResponse (d : pixData) : JS.completion thrown unit :=
  let missing := List.filter (fun f => negb (JS.truthy (field d f))) requiredFields in
  if (0 <? Z.of_nat (length missing)) then
    let error := new_Error (String.append "Campos obrigatórios faltando na resposta: "
                                          (JS.join ", " missing)) in
    let special := negb (JS.truthy (pixCode d)) || negb (JS.truthy (pixQrCode d)) in
    JS.Throw
      {| proto_of := proto_of error;
         code := code error;
         message := if special then Some "Transação criada mas sem código PIX"
                    else message error;
         message_enumerable := message_enumerable error;
         response_of := response_of error;
         type := if special then Some "NO_PIX_CODE" else Some "INVALID_RESPONSE";
         missingFields := missing;
         trackingId := trackingId error;
         isFor4Error := isFor4Error error |}
  else JS.Normal tt.

(** [createPixTransaction (trackingId)]; [post] is the completion of
    [this.client.post (...)]. Whatever the [try] block throws is rethrown
    as a spread copy. *)
Definition createPixTransaction (tid : string)
    (post : JS.completion thrown httpResponse) : JS.completion thrown result :=
  let body :=
    match post with
    | JS.Throw e => JS.Throw e
    | JS.Normal response =>
        match validatePixResponse (data response) with
        | JS.Throw e => JS.Throw e
        | JS.Normal _ =>
            JS.Normal {| success := true; r_data := data response;
                         r_responseTime := responseTime response |}
        end
    end in
  match body with
  | JS.Normal r => JS.Normal r
  | JS.Throw error => JS.Throw (spread_with error tid)
  end.

End For4Service.

(* ===================================================================== *)
(** ** src/utils/dataGenerator.js *)
(* ===================================================================== *)

Module DataGenerator.

(** [isWithinMonitoringHours (startHour, endHour)]; [currentHour] is
    [moment().hour()]. *)
Definition isWithinMonitoringHours (startHour endHour : option Z) (currentHour : Z) : bool :=
  if negb (JS.truthy_num startHour) || negb (JS.truthy_num endHour) then true
  else
    let s := default 0 startHour in
    let e := default 0 endHour in
    if e <? s then (s <=? currentHour) || (currentHour <? e)
    else (s <=? currentHour) && (currentHour <? e).

End DataGenerator.

(* ===================================================================== *)
(** ** src/monitor.js *)
(* ===================================================================== *)

Module Monitor.

Record errorSummary := {
  es_time : Z;
  es_type : ErrorHandler.ErrorTypes;
  es_message : option string;
  es_trackingId : string
}.

Record stats := {
  startTime : Z;
  totalChecks : Z;
  successfulChecks : Z;
  failedChecks : Z;
  totalResponseTime : Z;
  errors : list errorSummary;
  lastCheck : option Z;
  lastError : option errorSummary;
  isHealthy : bool
}.

(** Calls into the notification channel (telegramService). *)
Inductive call :=
| sendRecoveryAlert (m : ErrorHandler.recovery)
| sendErrorAlert (m : ErrorHandler.alert) (tid : string).

(** The orchestrator together with the two singletons it drives. *)
Record world := {
  w_stats : stats;
  isPaused : bool;
  errorState : gmap ErrorHandler.ErrorTypes ErrorHandler.entry;
  channel : list call      (* oldest first *)
}.

(** [new PixMonitor ()] beside a fresh [ErrorHandler]. *)
Definition initial (start : Z) : world :=
  {| w_stats := {| startTime := start; totalChecks := 0; successfulChecks := 0;
                   failedChecks := 0; totalResponseTime := 0; errors := [];
                   lastCheck := None; lastError := None; isHealthy := true |};
     isPaused := false;
     errorState := ∅;
     channel := [] |}.

Definition with_stats (f : stats -> stats) (w : world) : world :=
  {| w_stats := f (w_stats w); isPaused := isPaused w;
     errorState := errorState w; channel := channel w |}.
Definition with_errorState (s : gmap ErrorHandler.ErrorTypes ErrorHandler.entry)
    (w : world) : world :=
  {| w_stats := w_stats w; isPaused := isPaused w;
     errorState := s; channel := channel w |}.
Definition send (c : call) (w : world) : world :=
  {| w_stats := w_stats w; isPaused := isPaused w;
     errorState := errorState w; channel := (channel w ++ [c])%list |}.

Definition set_isHealthy (b : bool) (s : stats) : stats :=
  {| startTime := startTime s; totalChecks := totalChecks s;
     successfulChecks := successfulChecks s; failedChecks := failedChecks s;
     totalResponseTime := totalResponseTime s; errors := errors s;
     lastCheck := lastCheck s; lastError := lastError s; isHealthy := b |}.

(** The counters a successful check updates. *)
Definition count_success (rt at_ : Z) (s : stats) : stats :=
  {| startTime := startTime s; totalChecks := totalChecks s + 1;
     successfulChecks := successfulChecks s + 1; failedChecks := failedChecks s;
     totalResponseTime := totalResponseTime s + rt; errors := errors s;
     lastCheck := Some at_; lastError := lastError s; isHealthy := isHealthy s |}.

(** The counters a failed check updates before the error is processed. *)
Definition count_failure (at_ : Z) (s : stats) : stats :=
  {| startTime := startTime s; totalChecks := totalChecks s + 1;
     successfulChecks := successfulChecks s; failedChecks := failedChecks s + 1;
     totalResponseTime := totalResponseTime s; errors := errors s;
     lastCheck := Some at_; lastError := lastError s; isHealthy := false |}.

(** [errors.push (e)], the cap at the last 100, and [lastError]. *)
Definition record_error (e : errorSummary) (s : stats) : stats :=
  let pushed := (errors s ++ [e])%list in
  {| startTime := startTime s; totalChecks := totalChecks s;
     successfulChecks := successfulChecks s; failedChecks := failedChecks s;
     totalResponseTime := totalResponseTime s;
     errors := if (100 <? Z.of_nat (length pushed)) then JS.slice_last 100 pushed
               else pushed;
     lastCheck := lastCheck s; lastError := Some e; isHealthy := isHealthy s |}.

(** [notifyRecovery (result, trackingId)] *)
Definition recovery_of (r : For4Service.result) (tid : string) : ErrorHandler.recovery :=
  ErrorHandler.formatRecoveryMessage
    {| ErrorHandler.rc_trackingId := tid;
       ErrorHandler.rc_pixCode := For4Service.pixCode (For4Service.r_data r);
       ErrorHandler.rc_responseTime := For4Service.r_responseTime r |}.

Definition notifyRecovery (r : For4Service.result) (tid : string)
    : JS.M world thrown unit :=
  JS.modify (send (sendRecoveryAlert (recovery_of r tid))).

(** What one run of [runHealthCheck] observes from outside. *)
Record cycle := {
  currentHour : Z;                                   (* [moment().hour()] *)
  trackingId : string;                               (* [generateTrackingId()] *)
  post : JS.completion thrown For4Service.httpResponse;
  checkedAt : Z;                                     (* [new Date()] *)
  handledAt : Z;                                     (* [Date.now()] in handleError *)
  cooldownClock : Z                                  (* [Date.now()] in shouldSendNotification *)
}.

Definition on_errorState {A} (m : JS.M (gmap ErrorHandler.ErrorTypes ErrorHandler.entry) thrown A)
    : JS.M world thrown A :=
  JS.zoom errorState with_errorState m.

(** [runHealthCheck ()] *)
Definition runHealthCheck (cfg : Config.monitor) (c : cycle) : JS.M world thrown unit :=
  if negb (DataGenerator.isWithinMonitoringHours
             (Config.startHour cfg) (Config.endHour cfg) (currentHour c))
  then JS.ret tt
  else
    let* w := JS.get in
    if isPaused w then JS.ret tt
    else
      JS.try_catch
        (let* result := JS.of_completion
                          (For4Service.createPixTransaction (trackingId c) (post c)) in
         let* _ := JS.modify (with_stats
                     (count_success (For4Service.r_responseTime result) (checkedAt c))) in
         let* w := JS.get in
         let* _ := (if negb (isHealthy (w_stats w))
                    then (let* _ := JS.modify (with_stats (set_isHealthy true)) in
                          notifyRecovery result (trackingId c))
                    else JS.ret tt) in
         let* _ := on_errorState (ErrorHandler.clearErrorState None) in
         JS.ret tt)
        (fun error =>
         let* _ := JS.modify (with_stats (count_failure (checkedAt c))) in
         let* errorInfo :=
           on_errorState
             (ErrorHandler.handleError cfg error
                {| ErrorHandler.ctx_trackingId := Some (trackingId c) |}
                (handledAt c) (cooldownClock c)) in
         let* _ := JS.modify (with_stats (record_error
                     {| es_time := checkedAt c;
                        es_type := ErrorHandler.h_type errorInfo;
                        es_message := ErrorObject.message error;
                        es_trackingId := trackingId c |})) in
         let* _ := (if ErrorHandler.shouldNotify errorInfo
                    then JS.modify (send (sendErrorAlert (ErrorHandler.h_message errorInfo)
                                                         (trackingId c)))
                    else JS.ret tt) in
         JS.ret tt).

(** A run of check cycles, in order; a throw out of a cycle is the
    rejection of that cycle's promise and does not stop the next timer. *)
Fixpoint runAll (cfg : Config.monitor) (cs : list cycle) (w : world) : world :=
  match cs with
  | [] => w
  | c :: rest => runAll cfg rest (snd (runHealthCheck cfg c w))
  end.

End Monitor.

(* ===================================================================== *)
(** ** src/utils/performanceTracker.js *)
(* ===================================================================== *)

Module PerformanceTracker.

(** Clock values are milliseconds of local wall-clock time (the configured
    zone has a constant offset). The key [YYYY-MM-DD-HH] of an instant is
    the index of its hour, the key [YYYY-MM-DD] the index of its day: the
    formatted strings and these indices determine each other. *)
Definition msPerHour : Z := 3600000.
Definition msPerDay : Z := 86400000.
Definition hourKey (t : Z) : Z := t / msPerHour.
Definition dayKey (t : Z) : Z := t / msPerDay.
Definition hourOfDay (t : Z) : Z := (t / msPerHour) mod 24.

Record sample := {
  time : Z;
  responseTime : Z;
  success : bool;
  hasPixCode : bool
}.

(** [Infinity] is [None] in a [minTime] slot. *)
Record current := {
  count : Z;
  totalTime : Z;
  minTime : option Z;
  maxTime : Z;
  samples : list sample     (* oldest first *)
}.

Record hourlyBucket := {
  hb_count : Z;
  hb_totalTime : Z;
  hb_minTime : option Z;
  hb_maxTime : Z;
  hb_failures : Z
}.

Record breakdown := {
  bd_count : Z;
  bd_totalTime : Z;
  bd_avgTime : Z
}.

Record dailyBucket := {
  db_count : Z;
  db_totalTime : Z;
  db_minTime : option Z;
  db_maxTime : Z;
  db_failures : Z;
  hourlyBreakdown : gmap Z breakdown
}.

Record metrics := {
  m_current : current;
  hourly : gmap Z hourlyBucket;
  daily : gmap Z dailyBucket;
  lastUpdate : option Z
}.

Record tracker := {
  metrics_of : metrics;
  maxSamples : nat
}.

(** [this.metrics.current] *)
Definition current_of (t : tracker) : current := m_current (metrics_of t).

(** The metrics of the constructor, and a tracker over them with a given
    [maxSamples]. *)
Definition empty_metrics : metrics :=
  {| m_current := {| count := 0; totalTime := 0; minTime := None;
                     maxTime := 0; samples := [] |};
     hourly := ∅; daily := ∅; lastUpdate := None |}.

Definition with_capacity (cap : nat) : tracker :=
  {| metrics_of := empty_metrics; maxSamples := cap |}.

(** [new PerformanceTracker ()] when no metrics file exists. *)
Definition fresh : tracker := with_capacity 1000.

(** [Math.min (slot, x)] where the slot may hold [Infinity]. *)
Definition min_into (slot : option Z) (x : Z) : option Z :=
  match slot with
  | None => Some x
  | Some m => Some (Z.min m x)
  end.

(** [slot === Infinity ? 0 : slot] *)
Definition min_or_zero (slot : option Z) : Z := default 0 slot.

Definition record_current (maxS : nat) (s : sample) (c : current) : current :=
  let pushed := (samples c ++ [s])%list in
  {| count := count c + 1;
     totalTime := totalTime c + responseTime s;
     minTime := min_into (minTime c) (responseTime s);
     maxTime := Z.max (maxTime c) (responseTime s);
     samples := if (Z.of_nat maxS <? Z.of_nat (length pushed))
                then JS.slice_last maxS pushed else pushed |}.

Definition record_hourly (s : sample) (o : option hourlyBucket) : hourlyBucket :=
  let b := default {| hb_count := 0; hb_totalTime := 0; hb_minTime := None;
                      hb_maxTime := 0; hb_failures := 0 |} o in
  {| hb_count := hb_count b + 1;
     hb_totalTime := hb_totalTime b + responseTime s;
     hb_minTime := min_into (hb_minTime b) (responseTime s);
     hb_maxTime := Z.max (hb_maxTime b) (responseTime s);
     hb_failures := if success s then hb_failures b else hb_failures b + 1 |}.

Definition record_breakdown (s : sample) (o : option breakdown) : breakdown :=
  let b := default {| bd_count := 0; bd_totalTime := 0; bd_avgTime := 0 |} o in
  {| bd_count := bd_count b + 1;
     bd_totalTime := bd_totalTime b + responseTime s;
     bd_avgTime := JS.round_div (bd_totalTime b + responseTime s) (bd_count b + 1) |}.

Definition record_daily (s : sample) (o : option dailyBucket) : dailyBucket :=
  let b := default {| db_count := 0; db_totalTime := 0; db_minTime := None;
                      db_maxTime := 0; db_failures := 0; hourlyBreakdown := ∅ |} o in
  let h := hourOfDay (time s) in
  {| db_count := db_count b + 1;
     db_totalTime := db_totalTime b + responseTime s;
     db_minTime := min_into (db_minTime b) (responseTime s);
     db_maxTime := Z.max (db_maxTime b) (responseTime s);
     db_failures := if success s then db_failures b else db_failures b + 1;
     hourlyBreakdown :=
       <[h := record_breakdown s (hourlyBreakdown b !! h)]> (hourlyBreakdown b) |}.

(** [cleanOldData ()]; [clock] is its own [moment()]. A key is dropped when
    the start of its hour (day) is before seven days ago. *)
Definition cleanOldData (clock : Z) (m : metrics) : metrics :=
  let sevenDaysAgo := clock - 7 * msPerDay in
  {| m_current := m_current m;
     hourly := filter (fun kv : Z * hourlyBucket => sevenDaysAgo <= kv.1 * msPerHour)
                      (hourly m);
     daily := filter (fun kv : Z * dailyBucket => sevenDaysAgo <= kv.1 * msPerDay)
                     (daily m);
     lastUpdate := lastUpdate m |}.

(** [recordResponseTime (responseTime, success, hasPixCode)]; [now] is the
    [moment()] read on entry, [clock] the one [cleanOldData] reads. *)
Definition recordResponseTime (rt : Z) (ok pix : bool) (now clock : Z)
    (t : tracker) : tracker :=
  let m := metrics_of t in
  let s := {| time := now; responseTime := rt; success := ok; hasPixCode := pix |} in
  let hour := hourKey now in
  let day := dayKey now in
  let m' :=
    {| m_current := record_current (maxSamples t) s (m_current m);
       hourly := <[hour := record_hourly s (hourly m !! hour)]> (hourly m);
       daily := <[day := record_daily s (daily m !! day)]> (daily m);
       lastUpdate := Some now |} in
  {| metrics_of := cleanOldData clock m'; maxSamples := maxSamples t |}.

(** One [recordResponseTime] call as data: the arguments and the two
    clock reads. *)
Record recording := {
  rec_responseTime : Z;
  rec_success : bool;
  rec_hasPixCode : bool;
  rec_now : Z;
  rec_clock : Z
}.

(** The sample a call appends. *)
Definition sample_of (r : recording) : sample :=
  {| time := rec_now r; responseTime := rec_responseTime r;
     success := rec_success r; hasPixCode := rec_hasPixCode r |}.

Definition record (t : tracker) (r : recording) : tracker :=
  recordResponseTime (rec_responseTime r) (rec_success r) (rec_hasPixCode r)
                     (rec_now r) (rec_clock r) t.

(** A sequence of calls, first call first. *)
Definition recordAll (t : tracker) (rs : list recording) : tracker :=
  fold_left record rs t.

(** [moment (s.time).format ('HH:mm:ss')] *)
Definition digit (d : Z) : ascii := ascii_of_nat (48 + Z.to_nat d).
Definition pad2 (n : Z) : string :=
  String (digit (n / 10 mod 10)) (String (digit (n mod 10)) EmptyString).
Definition format_HHmmss (t : Z) : string :=
  String.append (pad2 ((t / msPerHour) mod 24))
    (String.append ":" (String.append (pad2 ((t / 60000) mod 60))
      (String.append ":" (pad2 ((t / 1000) mod 60))))).

Record recent := {
  rc_time : string;
  rc_responseTime : Z;
  rc_success : bool
}.

(** The entry [last10] shows for a sample. *)
Definition recent_of (s : sample) : recent :=
  {| rc_time := format_HHmmss (time s);
     rc_responseTime := responseTime s;
     rc_success := success s |}.

Record currentStats := {
  cs_count : Z;
  average : Z;
  cs_min : Z;
  cs_max : Z;
  last10 : list recent
}.

(** [getCurrentStats ()] *)
Definition getCurrentStats (t : tracker) : currentStats :=
  let c := m_current (metrics_of t) in
  if count c =? 0 then
    {| cs_count := 0; average := 0; cs_min := 0; cs_max := 0; last10 := [] |}
  else
    {| cs_count := count c;
       average := JS.round_div (totalTime c) (count c);
       cs_min := min_or_zero (minTime c);
       cs_max := maxTime c;
       last10 := List.map recent_of (JS.slice_last 10 (samples c)) |}.

(** An entry of [getHourlyStats]: the hour of day stands for the label
    [HH:00] and the hour key for the date label. *)
Record hourStat := {
  hs_hour : Z;
  hs_key : Z;
  hs_count : Z;
  hs_average : Z;
  hs_min : Z;
  hs_max : Z;
  hs_failures : Z
}.

Definition hourStat_at (t : tracker) (now : Z) (i : nat) : hourStat :=
  let hour := now - Z.of_nat i * msPerHour in
  match hourly (metrics_of t) !! hourKey hour with
  | Some hourData =>
      {| hs_hour := hourOfDay hour; hs_key := hourKey hour;
         hs_count := hb_count hourData;
         hs_average := JS.round_div (hb_totalTime hourData) (hb_count hourData);
         hs_min := min_or_zero (hb_minTime hourData);
         hs_max := hb_maxTime hourData;
         hs_failures := hb_failures hourData |}
  | None =>
      {| hs_hour := hourOfDay hour; hs_key := hourKey hour;
         hs_count := 0; hs_average := 0; hs_min := 0; hs_max := 0;
         hs_failures := 0 |}
  end.

(** [getHourlyStats (hours)]: [i] runs from [hours - 1] down to [0]. *)
Definition getHourlyStats (t : tracker) (hours : nat) (now : Z) : list hourStat :=
  List.map (hourStat_at t now) (rev (seq 0 hours)).

(** The loop of [calculateRecentAverage]: [i] from [offset] while
    [i < offset + hours], accumulating (totalTime, totalCount). *)
Definition recent_totals (t : tracker) (now : Z) (hours offset : nat) : Z * Z :=
  fold_left
    (fun (acc : Z * Z) (i : nat) =>
       match hourly (metrics_of t) !! hourKey (now - Z.of_nat i * msPerHour) with
       | Some hourData =>
           if 0 <? hb_count hourData
           then (acc.1 + hb_totalTime hourData, acc.2 + hb_count hourData)
           else acc
       | None => acc
       end)
    (seq offset hours) (0, 0).

(** [calculateRecentAverage (hours, offset = 0)]; the quotient
    [totalTime / totalCount] is given as the rational of the two integers. *)
Definition calculateRecentAverage (t : tracker) (hours offset : nat) (now : Z) : Q :=
  let '(totalTime, totalCount) := recent_totals t now hours offset in
  if 0 <? totalCount then (totalTime # Z.to_pos totalCount)%Q else 0%Q.

(** [Math.ceil ((percentile / 100) * length)], in binary64. *)
Definition percentile_rank (percentile : Z) (len : nat) : option Z :=
  JS.Math_ceil (PrimFloat.mul (PrimFloat.div (JS.double percentile) (JS.double 100))
                              (JS.double (Z.of_nat len))).

(** [calculatePercentile (sortedArray, percentile)]; [None] is the
    [undefined] of an index past the end (or of a [NaN] index). *)
Definition calculatePercentile (sortedArray : list Z) (percentile : Z) : option Z :=
  if Z.of_nat (length sortedArray) =? 0 then Some 0
  else
    match percentile_rank percentile (length sortedArray) with
    | Some rank =>
        let index := rank - 1 in
        sortedArray !! Z.to_nat (Z.max 0 index)
    | None => None
    end.

(** The percentiles [getPerformanceAnalysis] asks for. *)
Definition reported (percentile : Z) : Prop :=
  percentile = 50 \/ percentile = 95 \/ percentile = 99.

(** Whether the binary64 rank of [percentile] at length [len] is the exact
    ceiling of [percentile * len / 100]. *)
Definition rank_is_exact (percentile : Z) (len : nat) : bool :=
  match percentile_rank percentile len with
  | Some rank => rank =? JS.ceil_div (percentile * Z.of_nat len) 100
  | None => false
  end.

(** [samples.map (s => s.responseTime).sort ((a, b) => a - b)] *)
Definition sortedSamples (t : tracker) : list Z :=
  merge_sort Z.le (List.map responseTime (samples (m_current (metrics_of t)))).

Inductive trend := estavel | piorando | melhorando.

(** The trend block of [getPerformanceAnalysis]: the label and the signed
    percentage, the double [trendPercent] given as the rational it is. The
    two averages are the doubles of the quotients. *)
Definition trend_of (recentAvg olderAvg : Q) : trend * Q :=
  let recent := JS.quotient recentAvg in
  let older := JS.quotient olderAvg in
  if PrimFloat.ltb PrimFloat.zero recent && PrimFloat.ltb PrimFloat.zero older then
    let trendPercent :=
      PrimFloat.mul (PrimFloat.div (PrimFloat.sub recent older) older) (JS.double 100) in
    if PrimFloat.ltb (JS.double 10) trendPercent
    then (piorando, JS.rational trendPercent)
    else if PrimFloat.ltb trendPercent (JS.double (-10))
    then (melhorando, JS.rational trendPercent)
    else (estavel, JS.rational trendPercent)
  else (estavel, 0%Q).

(** [Math.abs (x).toFixed (1)], as a number of tenths: the integer n with
    n / 10 nearest to the value of the double, the larger one of two. *)
Definition abs_toFixed1 (x : Q) : Z := Qfloor (Qabs x * 10 + (1 # 2))%Q.

Record analysis := {
  a_trend : trend;
  trendPercent : Z;                  (* tenths of a percent *)
  criticalHours : list (Z * Z);      (* hour of day, average *)
  p50 : option Z;
  p95 : option Z;
  p99 : option Z;
  totalRequests : Z;
  avgResponseTime : Z;
  bestTime : Z;
  worstTime : Z
}.

(** [getPerformanceAnalysis ()]; the three clock values are the [moment()]
    reads of [getHourlyStats] and of the two [calculateRecentAverage]
    calls, in that order. *)
Definition getPerformanceAnalysis (t : tracker) (now1 now2 now3 : Z) : analysis :=
  let last24h := getHourlyStats t 24 now1 in
  let stats := getCurrentStats t in
  let recentAvg := calculateRecentAverage t 6 0 now2 in
  let olderAvg := calculateRecentAverage t 24 6 now3 in
  let '(tr, pct) := trend_of recentAvg olderAvg in
  let critical :=
    JS.slice_first 3
      (List.map (fun h => (hs_hour h, hs_average h))
         (List.filter (fun h => (3 * average stats <? 2 * hs_average h)
                                && (0 <? hs_count h)) last24h)) in
  let sorted := sortedSamples t in
  {| a_trend := tr;
     trendPercent := abs_toFixed1 pct;
     criticalHours := critical;
     p50 := calculatePercentile sorted 50;
     p95 := calculatePercentile sorted 95;
     p99 := calculatePercentile sorted 99;
     totalRequests := cs_count stats;
     avgResponseTime := average stats;
     bestTime := cs_min stats;
     worstTime := cs_max stats |}.

End PerformanceTracker.

(* ===================================================================== *)
(** ** Reference definitions that follow the specification's wording *)
(* ===================================================================== *)

Module Spec.

(** The active window of the monitoring hours as the specification words
    it: [start, 24) with [0, end) when the end hour is below the start
    hour, [start, end) otherwise. *)
Definition active_window (startHour endHour currentHour : Z) : bool :=
  if endHour <? startHour
  then (startHour <=? currentHour) || (currentHour <? endHour)
  else (startHour <=? currentHour) && (currentHour <? endHour).

(** The exact mean of the recorded response times, 0 when there is none. *)
Definition total (l : list Z) : Z := fold_right Z.add 0 l.
Definition exact_mean (l : list Z) : Q :=
  match l with
  | [] => 0%Q
  | _ => Qmake (total l) (Pos.of_nat (length l))
  end.

(** The [k] most recently recorded elements of a history, in the order
    they were recorded. *)
Definition most_recent {A} (k : nat) (history : list A) : list A :=
  drop (length history - k)%nat history.

(** [x] clamped to [[lo, hi]]. *)
Definition clamp (lo hi x : Z) : Z := Z.max lo (Z.min hi x).

(** The index of the nearest-rank percentile: [ceil (p / 100 * n) - 1]
    clamped to [[0, n - 1]]. *)
Definition nearest_rank (p : Z) (n : nat) : Z :=
  clamp 0 (Z.of_nat n - 1) (Qceiling (Qmake p 100 * inject_Z (Z.of_nat n)) - 1).

(** The older window of the trend as the specification words it: the
    hourly buckets from 6 up to 24 hours ago, that is 18 buckets. *)
Definition olderAvg_6_to_24 (t : PerformanceTracker.tracker) (now : Z) : Q :=
  PerformanceTracker.calculateRecentAverage t 18 6 now.

(** The kind the specification gives a failure of response validation:
    [NO_PIX_CODE] when a payment-code field is missing, and
    [INVALID_RESPONSE] for the other required fields. *)
Definition missing_field_kind (d : For4Service.pixData) : ErrorHandler.ErrorTypes :=
  if negb (JS.truthy (For4Service.pixCode d)) || negb (JS.truthy (For4Service.pixQrCode d))
  then ErrorHandler.NO_PIX_CODE
  else ErrorHandler.INVALID_RESPONSE.

End Spec.

(* ===================================================================== *)
(** ** Sample inputs *)
(* ===================================================================== *)

Module Samples.
Import PerformanceTracker.

(** A reference instant: 2023-11-14 22:13:20 on the wall clock. *)
Definition T0 : Z := 1700000000000.

Definition ok_at (rt now : Z) : recording :=
  {| rec_responseTime := rt; rec_success := true; rec_hasPixCode := true;
     rec_now := now; rec_clock := now |}.

(** The scenario [100, 200, 300, 400, 500], one second apart. *)
Definition five : list recording :=
  [ok_at 100 T0; ok_at 200 (T0 + 1000); ok_at 300 (T0 + 2000);
   ok_at 400 (T0 + 3000); ok_at 500 (T0 + 4000)].

(** One sample of 200 ms, and one of 100 ms twenty-six hours later. *)
Definition later : Z := T0 + 26 * msPerHour.
Definition gap26 : list recording := [ok_at 200 T0; ok_at 100 later].

(** A tracker with room for ten samples, and twelve recordings. *)
Definition small : tracker := with_capacity 10.
Definition twelve : list recording :=
  List.map (fun i => ok_at (Z.of_nat i) (T0 + Z.of_nat i)) (seq 1 12).

(** A purchase response without the payment-code fields, and one that
    lacks only the transaction id. *)
Definition no_code : For4Service.pixData :=
  {| For4Service.id := JS.VStr "tx-1";
     For4Service.status_of := JS.VStr "PENDING";
     For4Service.pixCode := JS.VUndefined;
     For4Service.pixQrCode := JS.VUndefined |}.
Definition no_id : For4Service.pixData :=
  {| For4Service.id := JS.VUndefined;
     For4Service.status_of := JS.VStr "PENDING";
     For4Service.pixCode := JS.VStr "00020126";
     For4Service.pixQrCode := JS.VStr "data:image/png" |}.

Definition answered (d : For4Service.pixData) : JS.completion thrown For4Service.httpResponse :=
  JS.Normal {| For4Service.data := d; For4Service.responseTime := 420 |}.

(** The error a request that ran into the client timeout carries. *)
Definition timed_out : ErrorObject.t :=
  {| ErrorObject.proto_of := ErrorObject.PlainObject;
     ErrorObject.code := Some "ECONNABORTED";
     ErrorObject.message := Some "timeout of 30000ms exceeded";
     ErrorObject.message_enumerable := true;
     ErrorObject.response_of := None;
     ErrorObject.type := None;
     ErrorObject.missingFields := [];
     ErrorObject.trackingId := Some "TRK-1";
     ErrorObject.isFor4Error := true |}.

Definition default_config : Config.monitor := Config.load Config.unset.

(** A complete purchase response. *)
Definition complete : For4Service.pixData :=
  {| For4Service.id := JS.VStr "tx-2";
     For4Service.status_of := JS.VStr "PENDING";
     For4Service.pixCode := JS.VStr "00020126";
     For4Service.pixQrCode := JS.VStr "data:image/png" |}.

(** A cycle whose request times out, and a later one that succeeds. *)
Definition failing : Monitor.cycle :=
  {| Monitor.currentHour := 22; Monitor.trackingId := "TRK-1";
     Monitor.post := JS.Throw timed_out;
     Monitor.checkedAt := T0; Monitor.handledAt := T0; Monitor.cooldownClock := T0 |}.
Definition passing : Monitor.cycle :=
  {| Monitor.currentHour := 22; Monitor.trackingId := "TRK-2";
     Monitor.post := answered complete;
     Monitor.checkedAt := T0 + 900000; Monitor.handledAt := T0 + 900000;
     Monitor.cooldownClock := T0 + 900000 |}.

(** The world after one failed cycle from the initial one. *)
Definition unhealthy : Monitor.world :=
  snd (Monitor.runHealthCheck default_config failing (Monitor.initial T0)).

End Samples.

(* ===================================================================== *)
(** ** src/utils/logger.js: generateValidCPF *)
(* ===================================================================== *)

Module CPF.

(** The loops [sum += digits[i] * (w - i)] for [i = 0, 1, ...] over a
    prefix of the digits: the first digit weighs [w], the next [w - 1]. *)
Fixpoint weighted (w : Z) (digits : list Z) : Z :=
  match digits with
  | [] => 0
  | d :: rest => d * w + weighted (w - 1) rest
  end.

(** [sum % 11 < 2 ? 0 : 11 - (sum % 11)] *)
Definition verifier (sum : Z) : Z :=
  if sum mod 11 <? 2 then 0 else 11 - sum mod 11.

(** The eleven digits of [generateValidCPF ()]; [randomDigits i] is the
    value of the i-th call of [randomDigits], a
    [Math.floor (Math.random () * 9)]. *)
Definition generateDigits (randomDigits : nat -> Z) : list Z :=
  let digits := List.map randomDigits (seq 0 9) in
  let firstVerifier := verifier (weighted 10 (take 9 digits)) in
  let digits := (digits ++ [firstVerifier])%list in
  let secondVerifier := verifier (weighted 11 (take 10 digits)) in
  (digits ++ [secondVerifier])%list.

(** [digits.join ('')] *)
Definition generateValidCPF (randomDigits : nat -> Z) : string :=
  fold_right (fun d s => String (PerformanceTracker.digit d) s) EmptyString
             (generateDigits randomDigits).

(** The usual check of the two verifier digits of a CPF number: each is
    the weighted sum of the digits before it, times 10, modulo 11, and
    modulo 10. *)
Definition check_digit (w : Z) (prefix : list Z) : Z :=
  ((10 * weighted w prefix) mod 11) mod 10.

Definition valid (digits : list Z) : bool :=
  (length digits =? 11)%nat
  && forallb (fun d => (0 <=? d) && (d <=? 9)) digits
  && (default (-1) (digits !! 9%nat) =? check_digit 10 (take 9 digits))
  && (default (-1) (digits !! 10%nat) =? check_digit 11 (take 10 digits)).

End CPF.

(* ===================================================================== *)
(** ** The monitor class: derived figures and the pause switch *)
(* ===================================================================== *)

Module MonitorControl.
Import Monitor.

(** [calculateAverageResponseTime ()] *)
Definition calculateAverageResponseTime (w : world) : Z :=
  if successfulChecks (w_stats w) =? 0 then 0
  else JS.round_div (totalResponseTime (w_stats w)) (successfulChecks (w_stats w)).

Definition set_isPaused (b : bool) (w : world) : world :=
  {| w_stats := w_stats w; isPaused := b;
     errorState := errorState w; channel := channel w |}.

(** [pause ()] and [resume ()] *)
Definition pause (w : world) : world := set_isPaused true w.
Definition resume (w : world) : world := set_isPaused false w.

(** The response time a cycle adds to the statistics when it succeeds. *)
Definition success_time (c : cycle) : option Z :=
  match For4Service.createPixTransaction (trackingId c) (post c) with
  | JS.Normal r => Some (For4Service.r_responseTime r)
  | JS.Throw _ => None
  end.

End MonitorControl.

(* ===================================================================== *)
(** ** Sequences of failures *)
(* ===================================================================== *)

Module Failures.
Import ErrorHandler.

(** One call of [handleError] as data: the error and the two clock reads. *)
Record failure := {
  f_error : ErrorObject.t;
  f_now : Z;
  f_clock : Z
}.

(** Consecutive calls of [handleError], first call first: the completions
    in order and the state they leave. *)
Fixpoint handleAll (cfg : Config.monitor) (ctx : context) (fs : list failure)
    (errorState : gmap ErrorTypes entry)
    : list (JS.completion thrown handled) * gmap ErrorTypes entry :=
  match fs with
  | [] => ([], errorState)
  | f :: rest =>
      let '(r, s) := handleError cfg (f_error f) ctx (f_now f) (f_clock f) errorState in
      let '(rs, s') := handleAll cfg ctx rest s in
      (r :: rs, s')
  end.

(** Whether a completion is a return that asks for no notification. *)
Definition silent (r : JS.completion thrown handled) : bool :=
  match r with
  | JS.Normal h => negb (shouldNotify h)
  | JS.Throw _ => false
  end.

(** The time of the first occurrence of a kind, if it has an entry. *)
Definition firstSeenAt (errorState : gmap ErrorTypes entry) (k : ErrorTypes) : option Z :=
  firstOccurrence <$> errorState !! k.

Definition lastSeenAt (errorState : gmap ErrorTypes entry) (k : ErrorTypes) : option Z :=
  lastOccurrence <$> errorState !! k.

End Failures.

(** A response with every required field truthy. *)
Definition complete_response (d : For4Service.pixData) : bool :=
  JS.truthy (For4Service.id d) && JS.truthy (For4Service.status_of d)
  && JS.truthy (For4Service.pixCode d) && JS.truthy (For4Service.pixQrCode d).

(* ===================================================================== *)
(** ** Invariants and further sample inputs *)
(* ===================================================================== *)

Module Invariants.

(** The counters of the monitor add up, and the list of recent errors is
    within its cap and no longer than the number of failed checks. *)
Definition counters_ok (w : Monitor.world) : Prop :=
  let s := Monitor.w_stats w in
  Monitor.totalChecks s = Monitor.successfulChecks s + Monitor.failedChecks s /\
  0 <= Monitor.successfulChecks s /\
  0 <= Monitor.failedChecks s /\
  (length (Monitor.errors s) <= 100)%nat /\
  Z.of_nat (length (Monitor.errors s)) <= Monitor.failedChecks s.

(** Every successful check so far took between [lo] and [hi]. *)
Definition times_within (lo hi : Z) (w : Monitor.world) : Prop :=
  let s := Monitor.w_stats w in
  0 <= Monitor.successfulChecks s /\
  lo * Monitor.successfulChecks s <= Monitor.totalResponseTime s /\
  Monitor.totalResponseTime s <= hi * Monitor.successfulChecks s.

(** A bucket holds at least one sample and no more failures than samples. *)
Definition bucket_ok (b : PerformanceTracker.hourlyBucket) : Prop :=
  1 <= PerformanceTracker.hb_count b /\
  0 <= PerformanceTracker.hb_failures b /\
  PerformanceTracker.hb_failures b <= PerformanceTracker.hb_count b.

(** The bucket a key is left with after a call that wrote [written] under
    [hour] and cleaned with the clock [clock]. *)
Definition retained (clock key : Z) : bool :=
  clock - 7 * PerformanceTracker.msPerDay <=? key * PerformanceTracker.msPerHour.

End Invariants.

Module Samples2.

(** Monitoring from 22h to 6h. *)
Definition night_config : Config.monitor :=
  Config.load {| Config.NOTIFICATION_COOLDOWN_MINUTES := None;
                 Config.MONITOR_START_HOUR := Some "22";
                 Config.MONITOR_END_HOUR := Some "6" |}.

(** The failing cycle of the samples, at 10h. *)
Definition midday : Monitor.cycle :=
  {| Monitor.currentHour := 10; Monitor.trackingId := "TRK-3";
     Monitor.post := JS.Throw Samples.timed_out;
     Monitor.checkedAt := Samples.T0; Monitor.handledAt := Samples.T0;
     Monitor.cooldownClock := Samples.T0 |}.

(** A cycle whose response lacks the payment code. *)
Definition incomplete : Monitor.cycle :=
  {| Monitor.currentHour := 22; Monitor.trackingId := "TRK-4";
     Monitor.post := Samples.answered Samples.no_code;
     Monitor.checkedAt := Samples.T0 + 1800000; Monitor.handledAt := Samples.T0 + 1800000;
     Monitor.cooldownClock := Samples.T0 + 1800000 |}.

(** A second timeout, five minutes after the first failing cycle. *)
Definition failing_again : Monitor.cycle :=
  {| Monitor.currentHour := 22; Monitor.trackingId := "TRK-5";
     Monitor.post := JS.Throw Samples.timed_out;
     Monitor.checkedAt := Samples.T0 + 300000; Monitor.handledAt := Samples.T0 + 300000;
     Monitor.cooldownClock := Samples.T0 + 300000 |}.

Definition ctx : ErrorHandler.context := {| ErrorHandler.ctx_trackingId := Some "TRK-1" |}.

(** The error state after one notified timeout at [T0]. *)
Definition notified : gmap ErrorHandler.ErrorTypes ErrorHandler.entry :=
  snd (ErrorHandler.handleError Samples.default_config Samples.timed_out ctx
         Samples.T0 Samples.T0 ∅).

(** Four more timeouts, one every five minutes. *)
Definition repeats : list Failures.failure :=
  List.map (fun i => {| Failures.f_error := Samples.timed_out;
                        Failures.f_now := Samples.T0 + Z.of_nat i * 300000;
                        Failures.f_clock := Samples.T0 + Z.of_nat i * 300000 + 5 |})
           (seq 1 4).

(** An HTTP 503 answer. *)
Definition unavailable : ErrorObject.t :=
  {| ErrorObject.proto_of := ErrorObject.PlainObject;
     ErrorObject.code := Some "ERR_BAD_RESPONSE";
     ErrorObject.message := Some "Request failed with status code 503";
     ErrorObject.message_enumerable := true;
     ErrorObject.response_of :=
       Some {| ErrorObject.status := Some 503; ErrorObject.data_message := None |};
     ErrorObject.type := None;
     ErrorObject.missingFields := [];
     ErrorObject.trackingId := None;
     ErrorObject.isFor4Error := false |}.

(** Nine draws of the digit generator. *)
Definition draws (i : nat) : Z := Z.of_nat ((i * 5 + 3) mod 9).

End Samples2.

(* ===================================================================== *)
(** ** Which cycles run, and how they end *)
(* ===================================================================== *)

Module Outcomes.
Import Monitor.

(** Whether a cycle falls inside the monitoring hours. *)
Definition in_hours (cfg : Config.monitor) (c : cycle) : bool :=
  DataGenerator.isWithinMonitoringHours
    (Config.startHour cfg) (Config.endHour cfg) (currentHour c).

(** Whether the probe of a cycle succeeds. *)
Definition succeeds (c : cycle) : bool :=
  match For4Service.createPixTransaction (trackingId c) (post c) with
  | JS.Normal _ => true
  | JS.Throw _ => false
  end.

(** The health flag after the cycles that run, given the flag before: that
    of the last cycle inside the monitoring hours, if there is one. *)
Definition health_after (cfg : Config.monitor) (cs : list cycle) (before : bool) : bool :=
  fold_left (fun h c => if in_hours cfg c then succeeds c else h) cs before.

End Outcomes.

(* ===================================================================== *)
(** ** The ranks of the whole percentiles, as a computation *)
(* ===================================================================== *)

Module Ranks.

(** [JS.Math_ceil] with the powers of two as shifts. *)
Definition ceil_shift (x : PrimFloat.float) : option Z :=
  match FloatOps.Prim2SF x with
  | SpecFloat.S754_zero _ => Some 0
  | SpecFloat.S754_finite s m e =>
      let v := if s then Z.neg m else Z.pos m in
      Some (if 0 <=? e then Z.shiftl v e else - Z.shiftr (- v) (- e))
  | _ => None
  end.

(** [PerformanceTracker.percentile_rank] at a length given in binary. *)
Definition rank (percentile len : Z) : option Z :=
  ceil_shift (PrimFloat.mul (PrimFloat.div (JS.double percentile) (JS.double 100))
                            (JS.double len)).

(** Whether [ranks], read as the ranks of the percentiles [p], [p + 1],
    ... at the length [len], are each the exact ceiling of
    [percentile * len / 100] or one more, the exact one at 50, 95 and 99,
    at most [len], and in ascending order. *)
Fixpoint near (len p : Z) (ranks : list (option Z)) : bool :=
  match ranks with
  | [] => true
  | None :: _ => false
  | Some r :: rest =>
      let exact := JS.ceil_div (p * len) 100 in
      (exact <=? r) && (r <=? exact + 1) && (r <=? len)
      && (negb ((p =? 50) || (p =? 95) || (p =? 99)) || (r =? exact))
      && match rest with
         | Some r' :: _ => r <=? r'
         | _ => true
         end
      && near len (p + 1) rest
  end.

(** The check of the percentiles 0, 1, ..., 100 at one length. *)
Definition whole_at (len : Z) : bool :=
  near len 0 ((fun p => rank p len) <$> seqZ 0 101).

End Ranks.

(* ===================================================================== *)
(** * Properties *)
(* ===================================================================== *)

Local Open Scope list_scope.

(** ** Monitoring hours *)

Section MonitoringHours.
Import DataGenerator.

Lemma truthy_num_Some (n : Z) : n <> 0 -> JS.truthy_num (Some n) = true.
Proof. intros Hn. simpl. apply negb_true_iff, Z.eqb_neq, Hn. Qed.

(** With two non-zero hours the check is the window of the specification. *)
Lemma isWithinMonitoringHours_nonzero (s e h : Z) :
  s <> 0 -> e <> 0 ->
  isWithinMonitoringHours (Some s) (Some e) h = Spec.active_window s e h.
Proof.
  intros Hs He. unfold isWithinMonitoringHours.
  rewrite !truthy_num_Some by assumption. reflexivity.
Qed.

Lemma active_window_spec (s e h : Z) :
  Spec.active_window s e h = true <->
  (e < s /\ (s <= h \/ h < e)) \/ (s <= e /\ s <= h < e).
Proof.
  unfold Spec.active_window.
  destruct (Z.ltb_spec e s), (Z.leb_spec s h), (Z.ltb_spec h e); simpl;
    split; intros H'; try reflexivity; try discriminate; lia.
Qed.

Example window_22_6 :
  isWithinMonitoringHours (Some 22) (Some 6) 23 = true /\
  isWithinMonitoringHours (Some 22) (Some 6) 2 = true /\
  isWithinMonitoringHours (Some 22) (Some 6) 10 = false.
Proof. repeat split. Qed.

(** parseInt reads a hexadecimal numeral after [0x], skips the white space
    in front, stops at the first character that is no digit, and gives
    [NaN] where no digit was read; an hour given as [0x16] loads as 22. *)
Example parseInt_numerals :
  JS.parseInt "0x16" = Some 22 /\ JS.parseInt "0X1f" = Some 31 /\
  JS.parseInt "-0x10" = Some (-16) /\ JS.parseInt "0x" = None /\
  JS.parseInt "08" = Some 8 /\ JS.parseInt "12px" = Some 12 /\
  JS.parseInt (String (ascii_of_nat 9) (String (ascii_of_nat 10) " 22")) = Some 22 /\
  JS.parseInt "" = None /\ JS.parseInt "abc" = None /\
  Config.startHour
    (Config.load {| Config.NOTIFICATION_COOLDOWN_MINUTES := None;
                    Config.MONITOR_START_HOUR := Some "0x16";
                    Config.MONITOR_END_HOUR := Some "6" |}) = Some 22.
Proof. vm_compute. repeat split. Qed.

(** C9. The window of the specification is [start, end) for
    [start <= end] and [start, 24) with [0, end) otherwise. Hour 0 is a
    configurable boundary ([MONITOR_START_HOUR=0] loads as the number 0),
    yet with start 0 and end 8 the check is active at hour 10, outside
    [0, 8); and with start 22 and end 0 it is active at hour 10, outside
    [22, 24). *)
Theorem isWithinMonitoringHours_zero_boundary_escapes_window :
  Config.parse_hour (Some "0") = Some 0 /\
  isWithinMonitoringHours (Some 0) (Some 8) 10 = true /\
  Spec.active_window 0 8 10 = false /\
  isWithinMonitoringHours (Some 22) (Some 0) 10 = true /\
  Spec.active_window 22 0 10 = false.
Proof. repeat split. Qed.

(** C10. If either boundary of the window is 0 or unset, the check
    returns true whatever the current hour: the guard tests the hours
    for truthiness. *)
Theorem isWithinMonitoringHours_falsy_boundary_always_active
    (startHour endHour : option Z) (currentHour : Z) :
  startHour = None \/ startHour = Some 0 \/ endHour = None \/ endHour = Some 0 ->
  isWithinMonitoringHours startHour endHour currentHour = true.
Proof.
  unfold isWithinMonitoringHours.
  intros [-> | [-> | [-> | ->]]]; simpl; try reflexivity;
    destruct (JS.truthy_num startHour); reflexivity.
Qed.

Lemma isWithinMonitoringHours_falsy_boundary_witness :
  (Config.parse_hour (Some "0") = None \/ Config.parse_hour (Some "0") = Some 0 \/
   Some 8 = None \/ Some 8 = Some 0) /\
  isWithinMonitoringHours (Config.parse_hour (Some "0")) (Some 8) 10 = true.
Proof.
  split.
  - right; left; reflexivity.
  - apply (isWithinMonitoringHours_falsy_boundary_always_active
             (Config.parse_hour (Some "0")) (Some 8) 10).
    right; left; reflexivity.
Defined.

End MonitoringHours.

(** ** Classification *)

Section Classification.
Import ErrorObject ErrorHandler.

(** The classifier has no rule that yields the two validation kinds. *)
Lemma classifyError_range (error : ErrorObject.t) (k : ErrorTypes) :
  classifyError error = JS.Normal k ->
  k = TIMEOUT_ERROR \/ k = NETWORK_ERROR \/ k = AUTH_ERROR \/ k = API_ERROR
  \/ k = UNKNOWN_ERROR.
Proof.
  unfold classifyError.
  destruct (code_is error "ECONNABORTED").
  { intros [= <-]; auto. }
  destruct (message error) as [m|]; [|discriminate].
  destruct (JS.includes m "timeout").
  { intros [= <-]; auto. }
  destruct (code_is error "ENOTFOUND" || code_is error "ECONNREFUSED").
  { intros [= <-]; auto. }
  destruct (response_of error) as [r|]; [|intros [= <-]; auto 10].
  destruct (status r) as [st|]; [|intros [= <-]; auto 10].
  destruct ((st =? 401) || (st =? 403)); [intros [= <-]; auto 10|].
  destruct ((400 <=? st) && (st <? 500)); [intros [= <-]; auto 10|].
  destruct (500 <=? st); intros [= <-]; auto 10.
Qed.

(** An error that carries a message is always classified. *)
Lemma classifyError_total_with_message (error : ErrorObject.t) (m : string) :
  message error = Some m -> exists k, classifyError error = JS.Normal k.
Proof.
  intros Hm. unfold classifyError. rewrite Hm.
  destruct (code_is error "ECONNABORTED"); [eauto|].
  destruct (JS.includes m "timeout"); [eauto|].
  destruct (code_is error "ENOTFOUND" || code_is error "ECONNREFUSED"); [eauto|].
  destruct (response_of error) as [r|]; [|eauto].
  destruct (status r) as [st|]; [|eauto].
  destruct ((st =? 401) || (st =? 403)); [eauto|].
  destruct ((400 <=? st) && (st <? 500)); [eauto|].
  destruct (500 <=? st); eauto.
Qed.

(** The validator tags its error with the kind the specification names. *)
Lemma validatePixResponse_tags (d : For4Service.pixData) (e : ErrorObject.t) :
  For4Service.validatePixResponse d = JS.Throw e ->
  type e = Some (ErrorTypes_name (Spec.missing_field_kind d)).
Proof.
  unfold For4Service.validatePixResponse, Spec.missing_field_kind.
  destruct (0 <? _); [|discriminate].
  intros [= <-]. simpl.
  destruct (negb (JS.truthy (For4Service.pixCode d))
            || negb (JS.truthy (For4Service.pixQrCode d))); reflexivity.
Qed.

(** C2. A response that lacks the payment-code fields fails validation
    with an error tagged NO_PIX_CODE, and one that lacks only the id with
    an error tagged INVALID_RESPONSE; the classifier returns neither kind
    for any input: it answers UNKNOWN_ERROR on both validation errors, and
    raises a TypeError on the copies that createPixTransaction rethrows,
    which have lost the message. *)
Theorem classifyError_never_yields_validation_kinds :
  (forall error : ErrorObject.t,
      classifyError error <> JS.Normal INVALID_RESPONSE /\
      classifyError error <> JS.Normal NO_PIX_CODE) /\
  (exists e, For4Service.validatePixResponse Samples.no_code = JS.Throw e /\
             type e = Some "NO_PIX_CODE" /\
             Spec.missing_field_kind Samples.no_code = NO_PIX_CODE /\
             classifyError e = JS.Normal UNKNOWN_ERROR) /\
  (exists e, For4Service.validatePixResponse Samples.no_id = JS.Throw e /\
             type e = Some "INVALID_RESPONSE" /\
             Spec.missing_field_kind Samples.no_id = INVALID_RESPONSE /\
             classifyError e = JS.Normal UNKNOWN_ERROR) /\
  (exists e m, For4Service.createPixTransaction "TRK-1" (Samples.answered Samples.no_code)
               = JS.Throw e /\
               classifyError e = JS.Throw (TypeError m)).
Proof.
  split; [|split; [|split]].
  - intros error; split; intros H; apply classifyError_range in H;
      intuition discriminate.
  - eexists; repeat split.
  - eexists; repeat split.
  - eexists; eexists; split; reflexivity.
Qed.

(** C4. The object createPixTransaction throws after a failed validation
    has no code and no message; on it classifyError raises a TypeError
    instead of returning a kind. *)
Theorem classifyError_raises_without_message :
  exists e,
    For4Service.createPixTransaction "TRK-1" (Samples.answered Samples.no_code)
      = JS.Throw e /\
    code e = None /\ message e = None /\ response_of e = None /\
    classifyError e
      = JS.Throw (TypeError "Cannot read properties of undefined (reading 'includes')") /\
    (forall k, classifyError e <> JS.Normal k).
Proof.
  eexists; split; [reflexivity|]. repeat split. intros k; discriminate.
Qed.

End Classification.

(** ** Trend of the performance analysis *)

Section Trend.
Import PerformanceTracker.

(** The accumulation of calculateRecentAverage visits the hours
    [offset], ..., [offset + hours - 1] before [now]. *)
Lemma recent_window_hours (hours offset : nat) :
  seq offset hours = List.map (fun i => (offset + i)%nat) (seq 0 hours).
Proof.
  revert offset. induction hours as [|n IH]; intros offset; [reflexivity|].
  simpl. rewrite Nat.add_0_r. f_equal.
  rewrite IH, <- seq_shift, List.map_map.
  apply List.map_ext. intros i. lia.
Qed.

(** When a window holds no sample its average is 0, the trend is stable
    and its percentage is reported as 0. *)
Lemma trend_of_empty_window (recentAvg olderAvg : Q) :
  recentAvg = 0%Q \/ olderAvg = 0%Q ->
  trend_of recentAvg olderAvg = (estavel, 0%Q).
Proof.
  unfold trend_of. intros [-> | ->].
  - reflexivity.
  - cbv zeta.
    destruct (PrimFloat.ltb PrimFloat.zero (JS.quotient recentAvg)); reflexivity.
Qed.

(** The thresholds are compared in binary64. An average of 11/5 against 2
    is a rise of exactly ten percent; the double of the percentage lies
    above 10 and the trend is reported as worsening. An average of 3/2
    against 5/3 is a fall of exactly ten percent, and the trend is reported
    as improving. Both are shown as 10.0. *)
Example trend_of_at_ten_percent :
  fst (trend_of (11 # 5) (2 # 1)) = piorando /\
  (10 < snd (trend_of (11 # 5) (2 # 1)))%Q /\
  abs_toFixed1 (snd (trend_of (11 # 5) (2 # 1))) = 100 /\
  fst (trend_of (3 # 2) (5 # 3)) = melhorando /\
  (snd (trend_of (3 # 2) (5 # 3)) < -10)%Q /\
  abs_toFixed1 (snd (trend_of (3 # 2) (5 # 3))) = 100.
Proof. vm_compute. repeat split. Qed.

(** The percentage is shown to one decimal of the double itself: the
    double of 15/100 lies below 0.15 and is shown as 0.1, the double of
    25/100 is 0.25 and is shown as 0.3. *)
Example abs_toFixed1_of_doubles :
  abs_toFixed1 (JS.rational (JS.quotient (15 # 100))) = 1 /\
  abs_toFixed1 (JS.rational (JS.quotient (25 # 100))) = 3 /\
  abs_toFixed1 (JS.rational (JS.quotient (-50 # 1))) = 500.
Proof. vm_compute. repeat split. Qed.

(** A change of a whole number of percent away from the thresholds: 150
    against 100 is a rise of 50 percent, 100 against 200 a fall of 50. *)
Example trend_of_fifty_percent :
  fst (trend_of (150 # 1) (100 # 1)) = piorando /\
  (snd (trend_of (150 # 1) (100 # 1)) == 50)%Q /\
  fst (trend_of (100 # 1) (200 # 1)) = melhorando /\
  (snd (trend_of (100 # 1) (200 # 1)) == -50)%Q /\
  fst (trend_of (105 # 1) (100 # 1)) = estavel /\
  (snd (trend_of (105 # 1) (100 # 1)) == 5)%Q.
Proof. vm_compute. repeat split. Qed.

(** C8. With one sample of 200 ms and one of 100 ms twenty-six hours
    later, no bucket lies between 6 and 24 hours before the analysis, so
    the older window of the specification is empty and the trend should be
    stable at 0; the call calculateRecentAverage(24, 6) reads the 24
    buckets from 6 to 29 hours back, finds the 200 ms sample, and the
    analysis reports an improving trend of 50.0 percent. *)
Theorem getPerformanceAnalysis_older_window_reaches_29_hours :
  let t := recordAll fresh Samples.gap26 in
  let now := Samples.later in
  seq 6 24 = [6; 7; 8; 9; 10; 11; 12; 13; 14; 15; 16; 17; 18; 19; 20; 21; 22; 23;
              24; 25; 26; 27; 28; 29]%nat /\
  calculateRecentAverage t 6 0 now = (100 # 1)%Q /\
  calculateRecentAverage t 24 6 now = (200 # 1)%Q /\
  Spec.olderAvg_6_to_24 t now = 0%Q /\
  trend_of (calculateRecentAverage t 6 0 now) (Spec.olderAvg_6_to_24 t now)
    = (estavel, 0%Q) /\
  a_trend (getPerformanceAnalysis t now now now) = melhorando /\
  trendPercent (getPerformanceAnalysis t now now now) = 500.
Proof. vm_compute. repeat split. Qed.

End Trend.

(** ** Recovery *)

Section Recovery.
Import Monitor.

(** A check that runs and succeeds leaves no entry in the error state,
    whatever the health flag was. *)
Lemma runHealthCheck_success_clears (cfg : Config.monitor) (c : cycle) (w : world)
    (r : For4Service.result) :
  DataGenerator.isWithinMonitoringHours
    (Config.startHour cfg) (Config.endHour cfg) (currentHour c) = true ->
  isPaused w = false ->
  For4Service.createPixTransaction (trackingId c) (post c) = JS.Normal r ->
  errorState (snd (runHealthCheck cfg c w)) = ∅.
Proof.
  intros Hin Hp Hr. unfold runHealthCheck. rewrite Hin. simpl.
  unfold JS.bind, JS.get, JS.try_catch, JS.of_completion. simpl.
  rewrite Hp, Hr. simpl.
  destruct (isHealthy (w_stats w)); reflexivity.
Qed.

(** C3. A check that runs (inside the monitoring hours, not paused) and
    succeeds while isHealthy is false completes normally, sets isHealthy
    to true, hands exactly one recovery alert to the notification channel
    whatever the error state and the cooldown are, and leaves the error
    state empty, so the consecutive count of every kind is 0. *)
Theorem runHealthCheck_recovery (cfg : Config.monitor) (c : cycle) (w : world)
    (r : For4Service.result) :
  DataGenerator.isWithinMonitoringHours
    (Config.startHour cfg) (Config.endHour cfg) (currentHour c) = true ->
  isPaused w = false ->
  For4Service.createPixTransaction (trackingId c) (post c) = JS.Normal r ->
  isHealthy (w_stats w) = false ->
  fst (runHealthCheck cfg c w) = JS.Normal tt /\
  isHealthy (w_stats (snd (runHealthCheck cfg c w))) = true /\
  channel (snd (runHealthCheck cfg c w))
    = (channel w ++ [sendRecoveryAlert (recovery_of r (trackingId c))])%list /\
  errorState (snd (runHealthCheck cfg c w)) = ∅ /\
  (forall k, errorState (snd (runHealthCheck cfg c w)) !! k = None) /\
  (forall k, ErrorHandler.consecutiveCount (errorState (snd (runHealthCheck cfg c w))) k = 0).
Proof.
  intros Hin Hp Hr Hh.
  assert (Hclear := runHealthCheck_success_clears cfg c w r Hin Hp Hr).
  repeat split.
  - unfold runHealthCheck. rewrite Hin. simpl.
    unfold JS.bind, JS.get, JS.try_catch, JS.of_completion. simpl.
    rewrite Hp, Hr. simpl. rewrite Hh. reflexivity.
  - unfold runHealthCheck. rewrite Hin. simpl.
    unfold JS.bind, JS.get, JS.try_catch, JS.of_completion. simpl.
    rewrite Hp, Hr. simpl. rewrite Hh. reflexivity.
  - unfold runHealthCheck. rewrite Hin. simpl.
    unfold JS.bind, JS.get, JS.try_catch, JS.of_completion. simpl.
    rewrite Hp, Hr. simpl. rewrite Hh. reflexivity.
  - exact Hclear.
  - intros k. rewrite Hclear. apply lookup_empty.
  - intros k. unfold ErrorHandler.consecutiveCount. rewrite Hclear, lookup_empty. reflexivity.
Qed.

Lemma runHealthCheck_recovery_witness :
  (DataGenerator.isWithinMonitoringHours
     (Config.startHour Samples.default_config) (Config.endHour Samples.default_config)
     (currentHour Samples.passing) = true /\
   isPaused Samples.unhealthy = false /\
   isHealthy (w_stats Samples.unhealthy) = false /\
   ErrorHandler.consecutiveCount (errorState Samples.unhealthy)
     ErrorHandler.TIMEOUT_ERROR = 1) /\
  isHealthy (w_stats (snd (runHealthCheck Samples.default_config Samples.passing
                             Samples.unhealthy))) = true /\
  errorState (snd (runHealthCheck Samples.default_config Samples.passing
                     Samples.unhealthy)) = ∅.
Proof.
  split; [repeat split|].
  destruct (runHealthCheck_recovery Samples.default_config Samples.passing
              Samples.unhealthy
              {| For4Service.success := true;
                 For4Service.r_data := Samples.complete;
                 For4Service.r_responseTime := 420 |})
    as (_ & Hh & _ & Hs & _); try reflexivity.
  split; [exact Hh|exact Hs].
Defined.

End Recovery.

(** ** Notification cooldown *)

Section Cooldown.
Import ErrorObject ErrorHandler.

(** One call of handleError on an error of kind [K]: it returns, counts
    the occurrence, decides on the last notification time it found, stamps
    its own time when it notifies, and touches no other kind. *)
Lemma handleError_step (cfg : Config.monitor) (error : ErrorObject.t) (ctx : context)
    (now clock : Z) (st : gmap ErrorTypes entry) (K : ErrorTypes) :
  classifyError error = JS.Normal K ->
  exists h st',
    handleError cfg error ctx now clock st = (JS.Normal h, st') /\
    h_type h = K /\
    shouldNotify h = due cfg clock (lastNotifiedAt st K) /\
    errorCount h = consecutiveCount st K + 1 /\
    consecutiveCount st' K = consecutiveCount st K + 1 /\
    lastNotifiedAt st' K
      = (if shouldNotify h then Some now else lastNotifiedAt st K) /\
    is_Some (st' !! K) /\
    (forall k, k <> K -> st' !! k = st !! k).
Proof.
  intros HK.
  unfold handleError, formatErrorMessage, JS.bind, JS.of_completion, JS.modify,
    JS.get, JS.ret.
  rewrite HK.
  unfold shouldSendNotification, due, lastNotifiedAt, consecutiveCount.
  destruct (st !! K) as [en|] eqn:Hst.
  - rewrite lookup_alter_eq, Hst. simpl.
    destruct (lastNotification en) as [t|] eqn:Hln; simpl.
    + destruct (Z.eqb_spec t 0) as [->|Hne]; simpl.
      * eexists _, _. split; [reflexivity|]. simpl.
        rewrite !lookup_alter_eq, Hst. simpl.
        repeat split; eauto.
        intros k Hk. rewrite !lookup_alter_ne by congruence. reflexivity.
      * destruct (cooldownMs cfg <=? clock - t) eqn:Hcd.
        -- eexists _, _. split; [reflexivity|]. simpl.
           rewrite !lookup_alter_eq, Hst. simpl.
           repeat split; eauto.
           intros k Hk. rewrite !lookup_alter_ne by congruence. reflexivity.
        -- eexists _, _. split; [reflexivity|]. simpl.
           rewrite !lookup_alter_eq, Hst. simpl. rewrite Hln.
           repeat split; eauto.
           intros k Hk. rewrite !lookup_alter_ne by congruence. reflexivity.
    + eexists _, _. split; [reflexivity|]. simpl.
      rewrite !lookup_alter_eq, Hst. simpl.
      repeat split; eauto.
      intros k Hk. rewrite !lookup_alter_ne by congruence. reflexivity.
  - rewrite lookup_alter_eq, lookup_insert_eq. simpl.
    eexists _, _. split; [reflexivity|]. simpl.
    rewrite !lookup_alter_eq, lookup_insert_eq. simpl.
    repeat split; eauto.
    intros k Hk. rewrite !lookup_alter_ne, lookup_insert_ne by congruence. reflexivity.
Qed.

Lemma due_unset (cfg : Config.monitor) (clock : Z) : due cfg clock None = true.
Proof. reflexivity. Qed.

Lemma due_iff (cfg : Config.monitor) (clock t : Z) :
  t <> 0 -> due cfg clock (Some t) = true <-> cooldownMs cfg <= clock - t.
Proof.
  intros Ht. unfold due.
  destruct (Z.eqb_spec t 0) as [?|_]; [contradiction|]. simpl.
  apply Z.leb_le.
Qed.

Lemma default_cooldown : cooldownMs Samples.default_config = 30 * 60 * 1000.
Proof. reflexivity. Qed.

(** C1. For every kind K and every failure that classifyError puts in K,
    handleError returns, and: it returns shouldNotify = true when K has no
    notification time (no entry, or an entry never notified); when K was
    last notified at [t] (a real timestamp, non-zero), it returns
    shouldNotify = true exactly when the clock shouldSendNotification reads
    is at least the cooldown past [t]; whenever it returns shouldNotify =
    true it stamps lastNotification with its own [now]. The cooldown is 30
    minutes when none is configured. For three failures of K one minute
    apart under a 30-minute cooldown, starting without an entry for K, only
    the first returns shouldNotify = true, and the count returned by the
    third is 3. *)
Theorem handleError_cooldown (cfg : Config.monitor) (ctx : context) (K : ErrorTypes) :
  (forall error now clock (st : gmap ErrorTypes entry),
      classifyError error = JS.Normal K ->
      exists h st',
        handleError cfg error ctx now clock st = (JS.Normal h, st') /\
        h_type h = K /\
        (lastNotifiedAt st K = None -> shouldNotify h = true) /\
        (forall t, lastNotifiedAt st K = Some t -> t <> 0 ->
                   (shouldNotify h = true <-> cooldownMs cfg <= clock - t)) /\
        (shouldNotify h = true -> lastNotifiedAt st' K = Some now) /\
        (shouldNotify h = false -> lastNotifiedAt st' K = lastNotifiedAt st K) /\
        errorCount h = consecutiveCount st K + 1) /\
  Config.notificationCooldownMinutes (Config.load Config.unset) = 30 /\
  (forall e1 e2 e3 t0 c1 c2 c3 (st : gmap ErrorTypes entry),
      Config.notificationCooldownMinutes cfg = 30 ->
      classifyError e1 = JS.Normal K ->
      classifyError e2 = JS.Normal K ->
      classifyError e3 = JS.Normal K ->
      st !! K = None ->
      0 < t0 ->
      t0 <= c1 ->
      t0 + 60000 <= c2 < t0 + 120000 ->
      t0 + 120000 <= c3 < t0 + 180000 ->
      exists h1 h2 h3 s1 s2 s3,
        handleError cfg e1 ctx t0 c1 st = (JS.Normal h1, s1) /\
        handleError cfg e2 ctx (t0 + 60000) c2 s1 = (JS.Normal h2, s2) /\
        handleError cfg e3 ctx (t0 + 120000) c3 s2 = (JS.Normal h3, s3) /\
        shouldNotify h1 = true /\
        shouldNotify h2 = false /\
        shouldNotify h3 = false /\
        errorCount h1 = 1 /\ errorCount h2 = 2 /\ errorCount h3 = 3 /\
        consecutiveCount s3 K = 3).
Proof.
  split; [|split; [reflexivity|]].
  - intros error now clock st HK.
    destruct (handleError_step cfg error ctx now clock st K HK)
      as (h & st' & Hrun & Hty & Hdue & Hcount & _ & Hlast & _ & _).
    exists h, st'. repeat split; try assumption.
    + intros Hnone. rewrite Hdue, Hnone. apply due_unset.
    + rewrite Hdue, H. apply due_iff; assumption.
    + rewrite Hdue, H. apply due_iff; assumption.
    + intros Hn. rewrite Hlast, Hn. reflexivity.
    + intros Hn. rewrite Hlast, Hn. reflexivity.
  - intros e1 e2 e3 t0 c1 c2 c3 st Hcfg H1 H2 H3 Hst Ht0 Hc1 Hc2 Hc3.
    assert (Hcd : cooldownMs cfg = 1800000) by (unfold cooldownMs; rewrite Hcfg; reflexivity).
    destruct (handleError_step cfg e1 ctx t0 c1 st K H1)
      as (h1 & s1 & Hrun1 & _ & Hdue1 & Hcount1 & Hcc1 & Hlast1 & _ & _).
    destruct (handleError_step cfg e2 ctx (t0 + 60000) c2 s1 K H2)
      as (h2 & s2 & Hrun2 & _ & Hdue2 & Hcount2 & Hcc2 & Hlast2 & _ & _).
    destruct (handleError_step cfg e3 ctx (t0 + 120000) c3 s2 K H3)
      as (h3 & s3 & Hrun3 & _ & Hdue3 & Hcount3 & Hcc3 & Hlast3 & _ & _).
    assert (Hn0 : lastNotifiedAt st K = None) by (unfold lastNotifiedAt; rewrite Hst; reflexivity).
    assert (Hz0 : consecutiveCount st K = 0) by (unfold consecutiveCount; rewrite Hst; reflexivity).
    assert (Hs1 : shouldNotify h1 = true) by (rewrite Hdue1, Hn0; reflexivity).
    rewrite Hs1 in Hlast1.
    assert (Hs2 : shouldNotify h2 = false).
    { rewrite Hdue2, Hlast1. unfold due. rewrite Hcd.
      destruct (Z.eqb_spec t0 0); [lia|]. simpl. apply Z.leb_gt. lia. }
    rewrite Hs2, Hlast1 in Hlast2.
    assert (Hs3 : shouldNotify h3 = false).
    { rewrite Hdue3, Hlast2. unfold due. rewrite Hcd.
      destruct (Z.eqb_spec t0 0); [lia|]. simpl. apply Z.leb_gt. lia. }
    exists h1, h2, h3, s1, s2, s3.
    repeat split; try assumption; lia.
Qed.

Lemma handleError_cooldown_witness :
  (classifyError Samples.timed_out = JS.Normal TIMEOUT_ERROR /\
   Config.notificationCooldownMinutes Samples.default_config = 30 /\
   0 < Samples.T0) /\
  (exists h st',
     handleError Samples.default_config Samples.timed_out
       {| ctx_trackingId := Some "TRK-1" |} Samples.T0 Samples.T0 ∅
       = (JS.Normal h, st') /\
     shouldNotify h = true /\
     lastNotifiedAt st' TIMEOUT_ERROR = Some Samples.T0) /\
  (exists h1 h2 h3 s1 s2 s3,
     handleError Samples.default_config Samples.timed_out
       {| ctx_trackingId := Some "TRK-1" |} Samples.T0 Samples.T0 ∅
       = (JS.Normal h1, s1) /\
     handleError Samples.default_config Samples.timed_out
       {| ctx_trackingId := Some "TRK-1" |} (Samples.T0 + 60000) (Samples.T0 + 60000) s1
       = (JS.Normal h2, s2) /\
     handleError Samples.default_config Samples.timed_out
       {| ctx_trackingId := Some "TRK-1" |} (Samples.T0 + 120000) (Samples.T0 + 120000) s2
       = (JS.Normal h3, s3) /\
     shouldNotify h1 = true /\ shouldNotify h2 = false /\ shouldNotify h3 = false /\
     errorCount h3 = 3).
Proof.
  assert (HK : classifyError Samples.timed_out = JS.Normal TIMEOUT_ERROR) by reflexivity.
  assert (Hcfg : Config.notificationCooldownMinutes Samples.default_config = 30)
    by reflexivity.
  assert (Ht0 : 0 < Samples.T0) by reflexivity.
  split; [repeat split; assumption|].
  destruct (handleError_cooldown Samples.default_config
              {| ctx_trackingId := Some "TRK-1" |} TIMEOUT_ERROR)
    as (Hstep & _ & Hthree).
  split.
  - destruct (Hstep Samples.timed_out Samples.T0 Samples.T0 ∅ HK)
      as (h & st' & Hrun & _ & Hfirst & _ & Hstamp & _).
    exists h, st'. split; [exact Hrun|].
    assert (Hs : shouldNotify h = true) by (apply Hfirst; reflexivity).
    split; [exact Hs | exact (Hstamp Hs)].
  - destruct (Hthree Samples.timed_out Samples.timed_out Samples.timed_out
                Samples.T0 Samples.T0 (Samples.T0 + 60000) (Samples.T0 + 120000) ∅
                Hcfg HK HK HK (lookup_empty _) Ht0)
      as (h1 & h2 & h3 & s1 & s2 & s3 & R1 & R2 & R3 & N1 & N2 & N3 & _ & _ & C3 & _);
      [unfold Samples.T0; lia..|].
    exists h1, h2, h3, s1, s2, s3. repeat split; assumption.
Defined.

Lemma handleError_three_timeouts :
  exists h1 h2 h3 s1 s2 s3,
    handleError Samples.default_config Samples.timed_out
      {| ctx_trackingId := Some "TRK-1" |} Samples.T0 Samples.T0 ∅
      = (JS.Normal h1, s1) /\
    handleError Samples.default_config Samples.timed_out
      {| ctx_trackingId := Some "TRK-1" |} (Samples.T0 + 60000) (Samples.T0 + 60000) s1
      = (JS.Normal h2, s2) /\
    handleError Samples.default_config Samples.timed_out
      {| ctx_trackingId := Some "TRK-1" |} (Samples.T0 + 120000) (Samples.T0 + 120000) s2
      = (JS.Normal h3, s3) /\
    (shouldNotify h1, shouldNotify h2, shouldNotify h3) = (true, false, false) /\
    errorCount h3 = 3.
Proof.
  do 6 eexists.
  split; [vm_compute; reflexivity|].
  split; [vm_compute; reflexivity|].
  split; [vm_compute; reflexivity|].
  split; reflexivity.
Qed.

End Cooldown.

(** ** Current statistics and the ring buffer *)

Section CurrentStats.
Import PerformanceTracker.

Lemma record_current_of (t : tracker) (r : recording) :
  current_of (record t r) = record_current (maxSamples t) (sample_of r) (current_of t).
Proof. reflexivity. Qed.

Lemma record_maxSamples (t : tracker) (r : recording) :
  maxSamples (record t r) = maxSamples t.
Proof. reflexivity. Qed.

Lemma recordAll_snoc (t : tracker) (rs : list recording) (r : recording) :
  recordAll t (rs ++ [r]) = record (recordAll t rs) r.
Proof. unfold recordAll. rewrite fold_left_app. reflexivity. Qed.

Lemma recordAll_maxSamples (t : tracker) (rs : list recording) :
  maxSamples (recordAll t rs) = maxSamples t.
Proof.
  induction rs as [|r rs IH] using rev_ind; [reflexivity|].
  rewrite recordAll_snoc, record_maxSamples. exact IH.
Qed.

(** *** The buffer keeps the most recent [maxSamples] samples *)

Lemma slice_last_most_recent {A} (k : nat) (l : list A) :
  (0 < k)%nat -> JS.slice_last k l = Spec.most_recent k l.
Proof. destruct k; [lia|reflexivity]. Qed.

Lemma most_recent_length {A} (k : nat) (l : list A) :
  length (Spec.most_recent k l) = Nat.min k (length l).
Proof. unfold Spec.most_recent. rewrite length_drop. lia. Qed.

Lemma most_recent_all {A} (k : nat) (l : list A) :
  (length l <= k)%nat -> Spec.most_recent k l = l.
Proof.
  intros Hle. unfold Spec.most_recent.
  replace (length l - k)%nat with 0%nat by lia. apply drop_0.
Qed.

Lemma most_recent_app {A} (k : nat) (l xs : list A) :
  Spec.most_recent k (Spec.most_recent k l ++ xs) = Spec.most_recent k (l ++ xs).
Proof.
  unfold Spec.most_recent.
  set (a := (length l - k)%nat).
  assert (Hsplit : l ++ xs = take a l ++ (drop a l ++ xs))
    by (rewrite app_assoc, take_drop; reflexivity).
  assert (Hlen : (length (l ++ xs) - k
                  = length (take a l) + (length (drop a l ++ xs) - k))%nat)
    by (rewrite !length_app, length_take, length_drop; lia).
  rewrite Hlen, Hsplit. symmetry. apply drop_app_add.
Qed.

Lemma most_recent_most_recent {A} (j k : nat) (l : list A) :
  (j <= k)%nat -> Spec.most_recent j (Spec.most_recent k l) = Spec.most_recent j l.
Proof.
  intros Hjk. unfold Spec.most_recent.
  rewrite length_drop, drop_drop. f_equal. lia.
Qed.

Lemma most_recent_app_r {A} (j : nat) (l xs : list A) :
  (j <= length xs)%nat -> Spec.most_recent j (l ++ xs) = Spec.most_recent j xs.
Proof.
  intros Hj. unfold Spec.most_recent.
  rewrite length_app, drop_app_ge by lia. f_equal. lia.
Qed.

Lemma record_current_samples (cap : nat) (s : sample) (c : current) :
  (0 < cap)%nat ->
  samples (record_current cap s c) = Spec.most_recent cap (samples c ++ [s]).
Proof.
  intros Hcap. unfold record_current. simpl.
  destruct (Z.ltb_spec (Z.of_nat cap) (Z.of_nat (length (samples c ++ [s])))).
  - apply slice_last_most_recent, Hcap.
  - symmetry. apply most_recent_all. lia.
Qed.

(** Whatever the buffer held, one call leaves at most [maxSamples] in it. *)
Lemma record_bounded (t : tracker) (r : recording) :
  (0 < maxSamples t)%nat ->
  (length (samples (current_of (record t r))) <= maxSamples t)%nat.
Proof.
  intros Hcap.
  rewrite record_current_of, record_current_samples, most_recent_length by exact Hcap.
  lia.
Qed.

Lemma recordAll_samples (t : tracker) (rs : list recording) :
  (0 < maxSamples t)%nat ->
  (length (samples (current_of t)) <= maxSamples t)%nat ->
  samples (current_of (recordAll t rs))
  = Spec.most_recent (maxSamples t) (samples (current_of t) ++ List.map sample_of rs).
Proof.
  intros Hcap Hlen.
  induction rs as [|r rs IH] using rev_ind.
  - simpl. rewrite app_nil_r. symmetry. apply most_recent_all, Hlen.
  - rewrite recordAll_snoc, record_current_of, recordAll_maxSamples.
    rewrite record_current_samples by exact Hcap.
    rewrite IH, most_recent_app, List.map_app, app_assoc. reflexivity.
Qed.

Lemma recordAll_count (t : tracker) (rs : list recording) :
  count (current_of (recordAll t rs)) = count (current_of t) + Z.of_nat (length rs).
Proof.
  induction rs as [|r rs IH] using rev_ind.
  - simpl. lia.
  - rewrite recordAll_snoc, record_current_of, length_app. simpl.
    fold (current_of (recordAll t rs)). rewrite IH. lia.
Qed.

(** C7. Starting from a buffer within its capacity (the constructor's
    empty one in particular), after every sequence of recordings the
    buffer holds at most maxSamples samples: exactly the maxSamples most
    recent of everything it has seen, oldest evicted first. Once at least
    ten samples were recorded, which is the case after the capacity of at
    least ten has been exceeded, last10 shows exactly the ten most recent
    recordings in the order they were recorded. The constructor sets the
    capacity to 1000. *)
Theorem ring_buffer_capacity (t : tracker) (rs : list recording) :
  (0 < maxSamples t)%nat ->
  (length (samples (current_of t)) <= maxSamples t)%nat ->
  maxSamples fresh = 1000%nat /\
  (length (samples (current_of (recordAll t rs))) <= maxSamples t)%nat /\
  samples (current_of (recordAll t rs))
    = Spec.most_recent (maxSamples t) (samples (current_of t) ++ List.map sample_of rs) /\
  (0 <= count (current_of t) -> (10 <= maxSamples t)%nat -> (10 <= length rs)%nat ->
   last10 (getCurrentStats (recordAll t rs))
     = List.map recent_of (Spec.most_recent 10 (List.map sample_of rs)) /\
   length (last10 (getCurrentStats (recordAll t rs))) = 10%nat).
Proof.
  intros Hcap Hlen.
  pose proof (recordAll_samples t rs Hcap Hlen) as Hs.
  split; [reflexivity|]. split; [|split; [exact Hs|]].
  - rewrite Hs, most_recent_length. lia.
  - intros Hcount Hten Hrs.
    assert (Hlast : last10 (getCurrentStats (recordAll t rs))
                    = List.map recent_of (Spec.most_recent 10 (List.map sample_of rs))).
    { unfold getCurrentStats. fold (current_of (recordAll t rs)).
      rewrite recordAll_count.
      destruct (Z.eqb_spec (count (current_of t) + Z.of_nat (length rs)) 0) as [Hz|_];
        [lia|].
      cbn [last10]. rewrite slice_last_most_recent by lia.
      rewrite Hs, most_recent_most_recent by exact Hten.
      rewrite most_recent_app_r by (rewrite length_map; exact Hrs).
      reflexivity. }
    split; [exact Hlast|].
    rewrite Hlast, length_map, most_recent_length, length_map. lia.
Qed.

Lemma ring_buffer_capacity_witness :
  ((0 < maxSamples Samples.small)%nat /\
   (length (samples (current_of Samples.small)) <= maxSamples Samples.small)%nat) /\
  (length (samples (current_of (recordAll Samples.small Samples.twelve))) <= 10)%nat /\
  List.map rc_responseTime (last10 (getCurrentStats (recordAll Samples.small Samples.twelve)))
    = [3; 4; 5; 6; 7; 8; 9; 10; 11; 12].
Proof.
  split; [split; vm_compute; lia|].
  destruct (ring_buffer_capacity Samples.small Samples.twelve) as (_ & Hb & _ & Hl).
  - vm_compute; lia.
  - vm_compute; lia.
  - split; [exact Hb|].
    destruct Hl as [Hl _].
    + vm_compute; discriminate.
    + vm_compute; lia.
    + vm_compute; lia.
    + rewrite Hl. reflexivity.
Defined.

(** *** Count, average, minimum and maximum *)

Lemma total_snoc (l : list Z) (x : Z) : Spec.total (l ++ [x]) = Spec.total l + x.
Proof.
  unfold Spec.total. induction l as [|y l IH]; simpl; [lia|]. rewrite IH. lia.
Qed.

Lemma pos_of_nat_Z (n : nat) : (0 < n)%nat -> Z.pos (Pos.of_nat n) = Z.of_nat n.
Proof.
  intros Hn. rewrite <- positive_nat_Z, Nat2Pos.id by lia. reflexivity.
Qed.

(** [Math.round] of the quotient is the floor of the exact mean plus a half. *)
Lemma round_div_mean (l : list Z) :
  l <> [] ->
  JS.round_div (Spec.total l) (Z.of_nat (length l))
  = Qfloor (Spec.exact_mean l + (1 # 2))%Q.
Proof.
  intros Hl. unfold Spec.exact_mean, JS.round_div.
  destruct l as [|x l]; [contradiction|].
  unfold Qplus, Qfloor. cbn [Qnum Qden].
  rewrite Pos2Z.inj_mul, pos_of_nat_Z by (simpl; lia).
  f_equal; lia.
Qed.

Lemma nil_or_not {A} (l : list A) : l = [] \/ l <> [].
Proof. destruct l; [left; reflexivity|right; discriminate]. Qed.

(** What the counters of [current] hold after a sequence of calls. *)
Lemma recordAll_current (cap : nat) (rs : list recording) :
  let c := current_of (recordAll (with_capacity cap) rs) in
  let vals := List.map rec_responseTime rs in
  count c = Z.of_nat (length rs) /\
  totalTime c = Spec.total vals /\
  (rs = [] -> minTime c = None /\ maxTime c = 0) /\
  (rs <> [] ->
   exists m, minTime c = Some m /\ m ∈ vals /\ Forall (fun x => m <= x) vals) /\
  Forall (fun x => x <= maxTime c) vals /\
  0 <= maxTime c /\
  (rs <> [] -> Forall (fun x => 0 <= x) vals -> maxTime c ∈ vals).
Proof.
  induction rs as [|r rs IH] using rev_ind.
  - simpl. repeat split; try reflexivity; try contradiction; try lia.
    constructor.
  - cbv zeta in IH |- *.
    destruct IH as (Hc & Ht & Hnil & Hmin & Hmax & Hpos & Hin).
    rewrite recordAll_snoc, record_current_of, List.map_app, length_app.
    cbn [List.map record_current count totalTime minTime maxTime length
                  sample_of responseTime].
    set (c := current_of (recordAll (with_capacity cap) rs)) in *.
    set (vals := List.map rec_responseTime rs) in *.
    set (x := rec_responseTime r).
    split; [lia|]. split; [rewrite total_snoc; lia|].
    split; [intros Habs; destruct rs; discriminate|].
    split; [|split; [|split]].
    + intros _. destruct (nil_or_not rs) as [Hrs|Hrs].
      * destruct (Hnil Hrs) as [-> _]. exists x. split; [reflexivity|].
        subst vals. rewrite Hrs. simpl. split; [apply list_elem_of_singleton; reflexivity|].
        repeat constructor. lia.
      * destruct (Hmin Hrs) as (m & -> & Hm & Hall).
        exists (Z.min m x). split; [reflexivity|]. split.
        -- apply elem_of_app.
           destruct (Z.min_spec m x) as [[_ ->]|[_ ->]];
             [left; exact Hm|right; apply list_elem_of_singleton; reflexivity].
        -- apply Forall_app. split.
           ++ eapply Forall_impl; [exact Hall|]. cbn. intros; lia.
           ++ repeat constructor. lia.
    + apply Forall_app. split.
      * eapply Forall_impl; [exact Hmax|]. cbn. intros; lia.
      * repeat constructor. lia.
    + lia.
    + intros _ Hnn. apply Forall_app in Hnn as [Hnn Hx].
      apply Forall_inv in Hx.
      apply elem_of_app.
      destruct (Z.max_spec (maxTime c) x) as [[_ ->]|[Hle ->]];
        [right; apply list_elem_of_singleton; reflexivity|].
      destruct (nil_or_not rs) as [Hrs|Hrs].
      * destruct (Hnil Hrs) as [_ H0]. right. apply list_elem_of_singleton. lia.
      * left. apply Hin; assumption.
Qed.

Example getCurrentStats_scenario :
  let st := getCurrentStats (recordAll fresh Samples.five) in
  cs_count st = 5 /\ average st = 300 /\ cs_min st = 100 /\ cs_max st = 500.
Proof. vm_compute. repeat split. Qed.

(** C5, as stated, fails: for the samples 1 and 2 the reported average is
    2, which is not their mean 3/2. *)
Lemma average_is_not_exact_mean :
  ~ Qeq (inject_Z (average (getCurrentStats
                              (recordAll fresh [Samples.ok_at 1 Samples.T0;
                                                Samples.ok_at 2 Samples.T0]))))
        (Spec.exact_mean [1; 2]).
Proof. vm_compute. discriminate. Qed.

(** C5, amended. After any sequence of n calls from the empty state,
    count is n; average is the exact mean rounded to the nearest integer,
    halves upwards (Math.round), hence 0 when n = 0 and the mean itself
    whenever the mean is an integer; min is the least recorded value; and,
    response times being non-negative, max is the greatest. *)
Theorem getCurrentStats_after_recordings (rs : list recording) :
  let vals := List.map rec_responseTime rs in
  let st := getCurrentStats (recordAll fresh rs) in
  cs_count st = Z.of_nat (length rs) /\
  average st = Qfloor (Spec.exact_mean vals + (1 # 2))%Q /\
  (rs = [] -> average st = 0) /\
  (forall q, rs <> [] -> Spec.total vals = q * Z.of_nat (length rs) -> average st = q) /\
  (rs <> [] -> cs_min st ∈ vals /\ Forall (fun x => cs_min st <= x) vals) /\
  (rs <> [] -> Forall (fun x => 0 <= x) vals ->
   cs_max st ∈ vals /\ Forall (fun x => x <= cs_max st) vals).
Proof.
  cbv zeta.
  destruct (recordAll_current 1000 rs) as (Hc & Ht & Hnil & Hmin & Hmax & Hpos & Hin).
  fold fresh in Hc, Ht, Hnil, Hmin, Hmax, Hpos, Hin.
  unfold getCurrentStats. fold (current_of (recordAll fresh rs)).
  rewrite Hc, Ht.
  destruct rs as [|r rs].
  - simpl. repeat split; try reflexivity; intros; contradiction.
  - assert (Hne : r :: rs <> []) by discriminate.
    destruct (Z.eqb_spec (Z.of_nat (length (r :: rs))) 0) as [Hz|_];
      [simpl in Hz; lia|].
    cbn [cs_count average cs_min cs_max].
    assert (Hlen : length (r :: rs) = length (List.map rec_responseTime (r :: rs)))
      by (rewrite length_map; reflexivity).
    assert (Hv : List.map rec_responseTime (r :: rs) <> []) by discriminate.
    split; [reflexivity|].
    split; [rewrite Hlen; apply round_div_mean, Hv|].
    split; [intros; contradiction|].
    split; [|split].
    + intros q _ Hq. rewrite Hq. unfold JS.round_div.
      set (n := Z.of_nat (length (r :: rs))).
      assert (0 < n) by (subst n; simpl; lia).
      replace (2 * (q * n) + n) with (n + q * (2 * n)) by lia.
      rewrite Z.div_add, Z.div_small by lia. lia.
    + intros _. destruct (Hmin Hne) as (m & -> & Hm & Hall). simpl. split; assumption.
    + intros _ Hnn. split; [apply Hin; assumption|exact Hmax].
Qed.

Lemma getCurrentStats_after_recordings_witness :
  (Samples.five <> [] /\
   Spec.total (List.map rec_responseTime Samples.five) = 300 * Z.of_nat (length Samples.five) /\
   Forall (fun x => 0 <= x) (List.map rec_responseTime Samples.five)) /\
  average (getCurrentStats (recordAll fresh Samples.five)) = 300 /\
  cs_max (getCurrentStats (recordAll fresh Samples.five))
    ∈ List.map rec_responseTime Samples.five.
Proof.
  assert (Hne : Samples.five <> []) by discriminate.
  assert (Hq : Spec.total (List.map rec_responseTime Samples.five)
               = 300 * Z.of_nat (length Samples.five)) by reflexivity.
  assert (Hnn : Forall (fun x => 0 <= x) (List.map rec_responseTime Samples.five))
    by (vm_compute; repeat constructor; discriminate).
  split; [repeat split; assumption|].
  destruct (getCurrentStats_after_recordings Samples.five)
    as (_ & _ & _ & Havg & _ & Hmax).
  split; [exact (Havg 300 Hne Hq)|exact (proj1 (Hmax Hne Hnn))].
Defined.

End CurrentStats.

(** ** Percentiles *)

Section Percentiles.
Import PerformanceTracker.

Lemma ceil_div_Qceiling (p n : Z) :
  JS.ceil_div (p * n) 100 = Qceiling (Qmake p 100 * inject_Z n).
Proof.
  unfold JS.ceil_div, Qceiling, Qfloor, Qopp, Qmult, inject_Z. cbn [Qnum Qden].
  rewrite Pos.mul_1_r. reflexivity.
Qed.

Lemma ceil_div_upper (a n : Z) : a <= 100 * n -> JS.ceil_div a 100 <= n.
Proof.
  intros Ha. unfold JS.ceil_div.
  pose proof (Z.div_mod (- a) 100 ltac:(lia)).
  pose proof (Z.mod_pos_bound (- a) 100 ltac:(lia)). lia.
Qed.

Lemma ceil_div_mono (a b : Z) : a <= b -> JS.ceil_div a 100 <= JS.ceil_div b 100.
Proof.
  intros Hab. unfold JS.ceil_div.
  assert ((- b) / 100 <= (- a) / 100) by (apply Z.div_le_mono; lia). lia.
Qed.

(** The rounding of [p / 100] can push the binary64 product over an
    integer: at 7 percent of 100 elements the rank is 8, not 7. *)
Example percentile_rank_7_of_100 :
  percentile_rank 7 100 = Some 8 /\ JS.ceil_div (7 * 100) 100 = 7.
Proof. vm_compute. split; reflexivity. Qed.

(** The shifts of [Ranks.ceil_shift] are the products and quotients of
    [JS.Math_ceil]. *)
Lemma ceil_shift_Math_ceil (x : PrimFloat.float) :
  Ranks.ceil_shift x = JS.Math_ceil x.
Proof.
  unfold Ranks.ceil_shift, JS.Math_ceil.
  destruct (FloatOps.Prim2SF x) as [sg|sg| |sg m e]; try reflexivity.
  cbv zeta. f_equal. destruct (Z.leb_spec 0 e) as [He|He].
  - apply Z.shiftl_mul_pow2, He.
  - rewrite Z.shiftr_div_pow2 by lia. reflexivity.
Qed.

Lemma rank_percentile_rank (p : Z) (n : nat) :
  Ranks.rank p (Z.of_nat n) = percentile_rank p n.
Proof. unfold Ranks.rank, percentile_rank. apply ceil_shift_Math_ceil. Qed.

(** What [Ranks.near] says of the entry at position [i]. *)
Lemma near_lookup (len : Z) (ranks : list (option Z)) :
  forall (p : Z) (i : nat),
    Ranks.near len p ranks = true -> (i < length ranks)%nat ->
    exists r, ranks !! i = Some (Some r) /\
      JS.ceil_div ((p + Z.of_nat i) * len) 100 <= r
        <= JS.ceil_div ((p + Z.of_nat i) * len) 100 + 1 /\
      r <= len /\
      (reported (p + Z.of_nat i) -> r = JS.ceil_div ((p + Z.of_nat i) * len) 100) /\
      (forall x, ranks !! S i = Some x -> exists r', x = Some r' /\ r <= r').
Proof.
  induction ranks as [|a rest IH]; intros p i Hnear Hi; [simpl in Hi; lia|].
  destruct a as [r|]; [|discriminate].
  cbn [Ranks.near] in Hnear. cbv zeta in Hnear.
  apply andb_true_iff in Hnear as [Hnear Hrest].
  apply andb_true_iff in Hnear as [Hnear Hnext].
  apply andb_true_iff in Hnear as [Hnear Hrep].
  apply andb_true_iff in Hnear as [Hnear Hlen].
  apply andb_true_iff in Hnear as [Hlo Hhi].
  apply Z.leb_le in Hlo, Hhi, Hlen.
  destruct i as [|j].
  - exists r. rewrite Z.add_0_r. split; [reflexivity|]. split; [lia|].
    split; [exact Hlen|]. split.
    + intros Hp. apply orb_true_iff in Hrep as [Hno | Heq].
      * apply negb_true_iff in Hno.
        destruct Hp as [-> | [-> | ->]]; discriminate.
      * apply Z.eqb_eq, Heq.
    + intros x Hx. destruct rest as [|[r'|] rest']; [discriminate| |discriminate].
      injection Hx as <-. apply Z.leb_le in Hnext. exists r'. split; [reflexivity|exact Hnext].
  - simpl in Hi.
    destruct (IH (p + 1) j Hrest ltac:(lia)) as (u & Hu & Hbounds & Hulen & Hurep & Hustep).
    replace (p + 1 + Z.of_nat j) with (p + Z.of_nat (S j)) in * by lia.
    exists u. split; [exact Hu|]. split; [exact Hbounds|]. split; [exact Hulen|].
    split; [exact Hurep|exact Hustep].
Qed.

(** For every whole percentile from 0 to 100 and every length up to the
    capacity of the ring buffer, the binary64 rank is the exact ceiling or
    one more, the exact one for the three reported percentiles, stays
    within the length, and does not decrease when the percentile grows by
    one. *)
Lemma whole_ranks_upto_capacity : forallb Ranks.whole_at (seqZ 0 1001) = true.
Proof. vm_compute. reflexivity. Qed.

Lemma percentile_rank_near (p : Z) (n : nat) :
  0 <= p <= 100 -> (n <= 1000)%nat ->
  exists r, percentile_rank p n = Some r /\
            JS.ceil_div (p * Z.of_nat n) 100 <= r <= JS.ceil_div (p * Z.of_nat n) 100 + 1 /\
            r <= Z.of_nat n /\
            (reported p -> r = JS.ceil_div (p * Z.of_nat n) 100) /\
            (p < 100 -> exists r', percentile_rank (p + 1) n = Some r' /\ r <= r').
Proof.
  intros Hp Hn.
  pose proof whole_ranks_upto_capacity as Hall.
  rewrite forallb_forall in Hall.
  assert (Hin : In (Z.of_nat n) (seqZ 0 1001)).
  { apply list_elem_of_In, elem_of_seqZ. lia. }
  specialize (Hall _ Hin). unfold Ranks.whole_at in Hall.
  assert (Hlookup : forall i : nat, (i < 101)%nat ->
            ((fun q => Ranks.rank q (Z.of_nat n)) <$> seqZ 0 101) !! i
            = Some (percentile_rank (Z.of_nat i) n)).
  { intros i Hi. rewrite list_lookup_fmap, lookup_seqZ_lt by lia.
    cbn [fmap option_fmap option_map]. rewrite Z.add_0_l, rank_percentile_rank.
    reflexivity. }
  destruct (near_lookup _ _ 0 (Z.to_nat p) Hall) as (r & Hr & Hb & Hlen & Hrep & Hstep).
  { rewrite length_fmap, length_seqZ. lia. }
  rewrite Z.add_0_l, Z2Nat.id in * by lia.
  rewrite Hlookup in Hr by lia. rewrite Z2Nat.id in Hr by lia.
  injection Hr as Hr.
  exists r. split; [exact Hr|]. split; [exact Hb|]. split; [exact Hlen|].
  split; [exact Hrep|].
  intros Hlt.
  destruct (Hstep (percentile_rank (p + 1) n)) as (r' & Hr' & Hle).
  { rewrite Hlookup by lia. f_equal. f_equal. lia. }
  exists r'. split; [exact Hr'|exact Hle].
Qed.

Lemma reported_rank_is_exact (p : Z) (n : nat) :
  reported p -> (n <= 1000)%nat -> rank_is_exact p n = true.
Proof.
  intros Hp Hn.
  assert (Hrange : 0 <= p <= 100) by (destruct Hp as [-> | [-> | ->]]; lia).
  destruct (percentile_rank_near p n Hrange Hn) as (r & Hr & _ & _ & Hrep & _).
  unfold rank_is_exact. rewrite Hr. apply Z.eqb_eq, Hrep, Hp.
Qed.

Lemma percentile_rank_exact (p : Z) (n : nat) :
  rank_is_exact p n = true ->
  percentile_rank p n = Some (JS.ceil_div (p * Z.of_nat n) 100).
Proof.
  unfold rank_is_exact.
  destruct (percentile_rank p n) as [rank|]; [|discriminate].
  intros H. apply Z.eqb_eq in H. congruence.
Qed.

(** The index calculatePercentile reads is the clamped nearest rank. *)
Lemma percentile_index (p : Z) (n : nat) :
  (0 < n)%nat -> p <= 100 ->
  Z.max 0 (JS.ceil_div (p * Z.of_nat n) 100 - 1) = Spec.nearest_rank p n /\
  (Z.to_nat (Spec.nearest_rank p n) < n)%nat.
Proof.
  intros Hn Hp. unfold Spec.nearest_rank, Spec.clamp.
  rewrite <- ceil_div_Qceiling.
  assert (JS.ceil_div (p * Z.of_nat n) 100 <= Z.of_nat n) by (apply ceil_div_upper; nia).
  split; lia.
Qed.

Lemma Sorted_lookup_le (l : list Z) (i j : nat) (a b : Z) :
  Sorted Z.le l -> (i <= j)%nat -> l !! i = Some a -> l !! j = Some b -> a <= b.
Proof.
  intros Hs. apply Sorted_StronglySorted in Hs; [|intros x y z; apply Z.le_trans].
  revert i j. induction Hs as [|x l Hs IH Hall]; intros i j Hij Hi Hj.
  - discriminate.
  - destruct i as [|i], j as [|j]; simpl in *.
    + assert (a = b) by congruence. lia.
    + injection Hi as <-. rewrite Forall_forall in Hall.
      apply Hall, (list_elem_of_lookup_2 _ j), Hj.
    + lia.
    + apply (IH i j); [lia|assumption..].
Qed.

Lemma calculatePercentile_nonempty (l : list Z) (p : Z) :
  l <> [] -> p <= 100 -> rank_is_exact p (length l) = true ->
  calculatePercentile l p = l !! Z.to_nat (Spec.nearest_rank p (length l)) /\
  is_Some (calculatePercentile l p).
Proof.
  intros Hl Hp Hx.
  assert (Hn : (0 < length l)%nat) by (destruct l; [contradiction|simpl; lia]).
  destruct (percentile_index p (length l) Hn Hp) as [Hidx Hlt].
  assert (Heq : calculatePercentile l p
                = l !! Z.to_nat (Spec.nearest_rank p (length l))).
  { unfold calculatePercentile.
    destruct (Z.eqb_spec (Z.of_nat (length l)) 0) as [Hz|_]; [lia|].
    rewrite (percentile_rank_exact p (length l) Hx). cbv zeta.
    rewrite Hidx. reflexivity. }
  split; [exact Heq|]. rewrite Heq. apply lookup_lt_is_Some_2, Hlt.
Qed.

(** On a sorted array the percentile grows with [p]. *)
Lemma calculatePercentile_mono (l : list Z) (p q : Z) :
  Sorted Z.le l -> l <> [] -> p <= q -> q <= 100 ->
  rank_is_exact p (length l) = true -> rank_is_exact q (length l) = true ->
  exists a b, calculatePercentile l p = Some a /\ calculatePercentile l q = Some b /\ a <= b.
Proof.
  intros Hs Hl Hpq Hq Xp Xq.
  assert (Hp : p <= 100) by lia.
  destruct (calculatePercentile_nonempty l p Hl Hp Xp) as [Ep [a Ha]].
  destruct (calculatePercentile_nonempty l q Hl Hq Xq) as [Eq [b Hb]].
  exists a, b. split; [exact Ha|]. split; [exact Hb|].
  rewrite Ep in Ha. rewrite Eq in Hb.
  refine (Sorted_lookup_le l _ _ a b Hs _ Ha Hb).
  assert (Hn : (0 < length l)%nat) by (destruct l; [contradiction|simpl; lia]).
  destruct (percentile_index p (length l) Hn Hp) as [<- _].
  destruct (percentile_index q (length l) Hn Hq) as [<- _].
  assert (JS.ceil_div (p * Z.of_nat (length l)) 100
          <= JS.ceil_div (q * Z.of_nat (length l)) 100) by (apply ceil_div_mono; nia).
  lia.
Qed.

Lemma sortedSamples_sorted (t : tracker) :
  Sorted Z.le (sortedSamples t) /\
  sortedSamples t ≡ₚ List.map responseTime (samples (current_of t)).
Proof.
  unfold sortedSamples. split.
  - apply Sorted_merge_sort, _.
  - apply merge_sort_Permutation.
Qed.

Lemma sortedSamples_length (t : tracker) :
  length (sortedSamples t) = length (samples (current_of t)).
Proof.
  destruct (sortedSamples_sorted t) as [_ Hp].
  rewrite Hp, length_map. reflexivity.
Qed.

(** Past 100 the index leaves the array and the read is [undefined]. *)
Example calculatePercentile_above_100 : calculatePercentile [1; 2] 150 = None.
Proof. vm_compute. reflexivity. Qed.

Example percentiles_scenario :
  let a := getPerformanceAnalysis (recordAll fresh Samples.five)
             Samples.later Samples.later Samples.later in
  sortedSamples (recordAll fresh Samples.five) = [100; 200; 300; 400; 500] /\
  p50 a = Some 300 /\ p95 a = Some 500 /\ p99 a = Some 500.
Proof. vm_compute. repeat split. Qed.







End Percentiles.

(* ===================================================================== *)
(** * Further properties of the code *)
(* ===================================================================== *)

(** ** Check cycles *)

Section Cycles.
Import Monitor Invariants.

Ltac run_cycle :=
  unfold runHealthCheck, JS.bind, JS.get, JS.try_catch, JS.of_completion,
    JS.modify, JS.ret, on_errorState, JS.zoom, notifyRecovery.

Lemma runHealthCheck_skipped_facts (cfg : Config.monitor) (c : cycle) (w : world) :
  DataGenerator.isWithinMonitoringHours
    (Config.startHour cfg) (Config.endHour cfg) (currentHour c) = false
  \/ isPaused w = true ->
  runHealthCheck cfg c w = (JS.Normal tt, w).
Proof.
  intros [Hout | Hp]; run_cycle.
  - rewrite Hout. reflexivity.
  - destruct (DataGenerator.isWithinMonitoringHours _ _ _); [|reflexivity].
    simpl. rewrite Hp. reflexivity.
Qed.

(** A cycle outside the monitoring hours, or while the monitor is paused,
    returns at once and changes nothing: no counter, no error state, no
    notification. *)
Theorem runHealthCheck_skipped (cfg : Config.monitor) (c : cycle) (w : world) :
  DataGenerator.isWithinMonitoringHours
    (Config.startHour cfg) (Config.endHour cfg) (currentHour c) = false
  \/ isPaused w = true ->
  runHealthCheck cfg c w = (JS.Normal tt, w).
Proof. exact (runHealthCheck_skipped_facts cfg c w). Qed.

Lemma runHealthCheck_skipped_witness :
  (DataGenerator.isWithinMonitoringHours
     (Config.startHour Samples2.night_config) (Config.endHour Samples2.night_config)
     (currentHour Samples2.midday) = false
   \/ isPaused Samples.unhealthy = true) /\
  runHealthCheck Samples2.night_config Samples2.midday Samples.unhealthy
    = (JS.Normal tt, Samples.unhealthy).
Proof.
  split; [left; reflexivity|].
  apply (runHealthCheck_skipped Samples2.night_config Samples2.midday Samples.unhealthy).
  left; reflexivity.
Defined.

(** pause makes every cycle a no-op until resume, which restores the
    monitor as it was. *)
Theorem paused_cycles_change_nothing (cfg : Config.monitor) (cs : list cycle) (w : world) :
  runAll cfg cs (MonitorControl.pause w) = MonitorControl.pause w /\
  (isPaused w = false ->
   MonitorControl.resume (runAll cfg cs (MonitorControl.pause w)) = w).
Proof.
  assert (Hrun : runAll cfg cs (MonitorControl.pause w) = MonitorControl.pause w).
  { induction cs as [|c cs IH]; [reflexivity|].
    simpl. rewrite runHealthCheck_skipped_facts by (right; reflexivity). exact IH. }
  split; [exact Hrun|].
  intros Hp. rewrite Hrun. destruct w as [s p e ch]. simpl in Hp. subst p. reflexivity.
Qed.

Lemma paused_cycles_change_nothing_witness :
  isPaused Samples.unhealthy = false /\
  MonitorControl.resume
    (runAll Samples.default_config [Samples.passing; Samples.failing]
       (MonitorControl.pause Samples.unhealthy)) = Samples.unhealthy.
Proof.
  split; [reflexivity|].
  apply (proj2 (paused_cycles_change_nothing Samples.default_config
                  [Samples.passing; Samples.failing] Samples.unhealthy)).
  reflexivity.
Defined.

Lemma record_error_length (e : errorSummary) (s : stats) :
  (length (errors s) <= 100)%nat ->
  (length (errors (record_error e s)) <= 100)%nat /\
  (length (errors (record_error e s)) <= S (length (errors s)))%nat.
Proof.
  intros Hlen. unfold record_error. cbn [errors].
  destruct (Z.ltb_spec 100 (Z.of_nat (length (errors s ++ [e])))) as [Hgt|Hle].
  - unfold JS.slice_last. rewrite length_drop, length_app. simpl. lia.
  - rewrite length_app in *. simpl in *. lia.
Qed.

Lemma runHealthCheck_counters (cfg : Config.monitor) (c : cycle) (w : world) :
  counters_ok w -> counters_ok (snd (runHealthCheck cfg c w)).
Proof.
  intros Hok. run_cycle.
  destruct (DataGenerator.isWithinMonitoringHours _ _ _); [|exact Hok].
  cbn [negb]. destruct (isPaused w); [exact Hok|].
  destruct Hok as (Htot & Hs & Hf & Hcap & Hle).
  destruct (For4Service.createPixTransaction _ _) as [r|error].
  - cbn -[Z.of_nat]. destruct (isHealthy (w_stats w)); unfold counters_ok;
      cbn -[Z.of_nat]; repeat split; lia.
  - cbn -[Z.of_nat ErrorHandler.handleError record_error].
    destruct (ErrorHandler.handleError _ _ _ _ _ _) as [[h|e] st'].
    + cbn -[Z.of_nat record_error].
      set (s1 := count_failure (checkedAt c) (w_stats w)).
      set (e1 := {| es_time := _ |}).
      destruct (record_error_length e1 s1) as [H100 HS]; [exact Hcap|].
      assert (Hrest : counters_ok
                {| w_stats := record_error e1 s1; isPaused := false;
                   errorState := st'; channel := channel w |}).
      { unfold counters_ok. cbn -[Z.of_nat record_error].
        assert (Hfields : totalChecks (record_error e1 s1) = totalChecks (w_stats w) + 1 /\
                          successfulChecks (record_error e1 s1) = successfulChecks (w_stats w) /\
                          failedChecks (record_error e1 s1) = failedChecks (w_stats w) + 1)
          by (repeat split).
        destruct Hfields as (-> & -> & ->).
        subst s1. cbn [errors count_failure] in HS. repeat split; try lia. }
      destruct (ErrorHandler.shouldNotify h); exact Hrest.
    + unfold counters_ok. cbn -[Z.of_nat]. repeat split; lia.
Qed.

(** Whatever the cycles bring (successes, failures, skipped cycles, and
    cycles that end in an exception), from the initial monitor the total
    number of checks is the sum of the successful and the failed ones, the
    list of recent errors never holds more than 100 entries, and it never
    holds more entries than there were failed checks. *)
Theorem runAll_counters (cfg : Config.monitor) (cs : list cycle) (start : Z) :
  counters_ok (runAll cfg cs (initial start)).
Proof.
  assert (Hgen : forall w, counters_ok w -> counters_ok (runAll cfg cs w)).
  { induction cs as [|c cs IH]; intros w Hw; [exact Hw|].
    simpl. apply IH, runHealthCheck_counters, Hw. }
  apply Hgen. unfold counters_ok. simpl. repeat split; lia.
Qed.

End Cycles.

Section CycleOutcomes.
Import Monitor Invariants.

Ltac run_cycle :=
  unfold runHealthCheck, JS.bind, JS.get, JS.try_catch, JS.of_completion,
    JS.modify, JS.ret, on_errorState, JS.zoom, notifyRecovery.

(** A check that runs and fails with an error classifyError puts in kind K
    completes normally, marks the monitor unhealthy, counts one more failed
    check, records K as the last error, raises K's consecutive count by one,
    and hands the channel exactly one error alert of kind K when the
    cooldown rule lets it through, and nothing otherwise. *)
Theorem runHealthCheck_failure (cfg : Config.monitor) (c : cycle) (w : world)
    (error : ErrorObject.t) (K : ErrorHandler.ErrorTypes) :
  DataGenerator.isWithinMonitoringHours
    (Config.startHour cfg) (Config.endHour cfg) (currentHour c) = true ->
  isPaused w = false ->
  For4Service.createPixTransaction (trackingId c) (post c) = JS.Throw error ->
  ErrorHandler.classifyError error = JS.Normal K ->
  let w' := snd (runHealthCheck cfg c w) in
  let notify := ErrorHandler.due cfg (cooldownClock c)
                  (ErrorHandler.lastNotifiedAt (errorState w) K) in
  fst (runHealthCheck cfg c w) = JS.Normal tt /\
  isHealthy (w_stats w') = false /\
  failedChecks (w_stats w') = failedChecks (w_stats w) + 1 /\
  successfulChecks (w_stats w') = successfulChecks (w_stats w) /\
  (es_type <$> lastError (w_stats w')) = Some K /\
  ErrorHandler.consecutiveCount (errorState w') K
    = ErrorHandler.consecutiveCount (errorState w) K + 1 /\
  (notify = true ->
   exists m, channel w' = channel w ++ [sendErrorAlert m (trackingId c)] /\
             ErrorHandler.alert_type m = K) /\
  (notify = false -> channel w' = channel w).
Proof.
  intros Hin Hp Hthrow HK.
  destruct (handleError_step cfg error
              {| ErrorHandler.ctx_trackingId := Some (trackingId c) |}
              (handledAt c) (cooldownClock c) (errorState w) K HK)
    as (h & st' & Hrun & Hty & Hdue & _ & Hcount & _ & _ & _).
  assert (Hmsg : ErrorHandler.alert_type (ErrorHandler.h_message h) = K).
  { revert Hrun. unfold ErrorHandler.handleError, ErrorHandler.formatErrorMessage,
      JS.bind, JS.of_completion, JS.modify, JS.get, JS.ret.
    rewrite HK. intros Hrun. apply (f_equal fst) in Hrun. cbn [fst] in Hrun.
    injection Hrun as <-. reflexivity. }
  cbv zeta. run_cycle. rewrite Hin. cbn [negb]. rewrite Hp, Hthrow.
  cbn -[ErrorHandler.handleError record_error].
  rewrite Hrun. cbn -[record_error].
  rewrite <- Hdue.
  destruct (ErrorHandler.shouldNotify h); cbn -[record_error].
  - rewrite Hty. repeat split; try assumption; try discriminate.
    intros _. eexists. split; [reflexivity|exact Hmsg].
  - rewrite Hty. repeat split; try assumption; try discriminate.
Qed.

Lemma runHealthCheck_failure_witness :
  (DataGenerator.isWithinMonitoringHours
     (Config.startHour Samples.default_config) (Config.endHour Samples.default_config)
     (currentHour Samples2.failing_again) = true /\
   isPaused Samples.unhealthy = false /\
   For4Service.createPixTransaction (trackingId Samples2.failing_again)
     (post Samples2.failing_again)
     = JS.Throw (ErrorObject.spread_with Samples.timed_out "TRK-5") /\
   ErrorHandler.classifyError (ErrorObject.spread_with Samples.timed_out "TRK-5")
     = JS.Normal ErrorHandler.TIMEOUT_ERROR /\
   ErrorHandler.due Samples.default_config (cooldownClock Samples2.failing_again)
     (ErrorHandler.lastNotifiedAt (errorState Samples.unhealthy)
        ErrorHandler.TIMEOUT_ERROR) = false) /\
  channel (snd (runHealthCheck Samples.default_config Samples2.failing_again
                  Samples.unhealthy)) = channel Samples.unhealthy /\
  ErrorHandler.consecutiveCount
    (errorState (snd (runHealthCheck Samples.default_config Samples2.failing_again
                        Samples.unhealthy))) ErrorHandler.TIMEOUT_ERROR = 2.
Proof.
  split; [repeat split|].
  destruct (runHealthCheck_failure Samples.default_config Samples2.failing_again
              Samples.unhealthy (ErrorObject.spread_with Samples.timed_out "TRK-5")
              ErrorHandler.TIMEOUT_ERROR)
    as (_ & _ & _ & _ & _ & Hc & _ & Hq); try reflexivity.
  split; [apply Hq; reflexivity|].
  rewrite Hc. reflexivity.
Defined.

(** The rethrown copy of a validation error has neither code nor message. *)
Lemma createPixTransaction_incomplete (tid : string) (r : For4Service.httpResponse) :
  complete_response (For4Service.data r) = false ->
  exists e, For4Service.createPixTransaction tid (JS.Normal r) = JS.Throw e /\
            ErrorObject.code e = None /\ ErrorObject.message e = None /\
            ErrorObject.trackingId e = Some tid /\
            ErrorObject.type e
              = Some (ErrorHandler.ErrorTypes_name
                        (Spec.missing_field_kind (For4Service.data r))).
Proof.
  intros Hinc. unfold For4Service.createPixTransaction.
  destruct (For4Service.validatePixResponse (For4Service.data r)) as [[]|e] eqn:Hv.
  - exfalso. revert Hv Hinc.
    unfold For4Service.validatePixResponse, complete_response,
      For4Service.requiredFields, For4Service.field.
    cbn [List.filter String.eqb Ascii.eqb Bool.eqb andb].
    destruct (JS.truthy (For4Service.id (For4Service.data r))),
             (JS.truthy (For4Service.status_of (For4Service.data r))),
             (JS.truthy (For4Service.pixCode (For4Service.data r))),
             (JS.truthy (For4Service.pixQrCode (For4Service.data r)));
      cbn; intros; discriminate.
  - pose proof (validatePixResponse_tags _ _ Hv) as Htag.
    assert (He : ErrorObject.code e = None /\ ErrorObject.message_enumerable e = false).
    { revert Hv. unfold For4Service.validatePixResponse.
      destruct (0 <? _); [|discriminate].
      intros [= <-]. split; reflexivity. }
    destruct He as [Hc Hm].
    eexists. split; [reflexivity|].
    unfold ErrorObject.spread_with. cbn. rewrite Hc, Hm. repeat split. exact Htag.
Qed.

(** A check whose HTTP call succeeds but whose response lacks a required
    field does not reach the error handling: the cycle ends with a
    TypeError thrown out of runHealthCheck. The check is counted as failed
    and the monitor marked unhealthy, but no alert is sent, no error is
    recorded in the recent-error list or as last error, and the error state
    is left as it was. *)
Theorem runHealthCheck_incomplete_response_throws (cfg : Config.monitor) (c : cycle)
    (w : world) (r : For4Service.httpResponse) :
  DataGenerator.isWithinMonitoringHours
    (Config.startHour cfg) (Config.endHour cfg) (currentHour c) = true ->
  isPaused w = false ->
  post c = JS.Normal r ->
  complete_response (For4Service.data r) = false ->
  let w' := snd (runHealthCheck cfg c w) in
  (exists m, fst (runHealthCheck cfg c w) = JS.Throw (ErrorObject.TypeError m)) /\
  channel w' = channel w /\
  errorState w' = errorState w /\
  errors (w_stats w') = errors (w_stats w) /\
  lastError (w_stats w') = lastError (w_stats w) /\
  isHealthy (w_stats w') = false /\
  failedChecks (w_stats w') = failedChecks (w_stats w) + 1.
Proof.
  intros Hin Hp Hpost Hinc.
  destruct (createPixTransaction_incomplete (trackingId c) r Hinc)
    as (e & Hthrow & Hcode & Hmsg & _).
  assert (Hcls : ErrorHandler.classifyError e
                 = JS.Throw (ErrorObject.TypeError
                               "Cannot read properties of undefined (reading 'includes')")).
  { unfold ErrorHandler.classifyError, ErrorHandler.code_is. rewrite Hcode, Hmsg.
    reflexivity. }
  cbv zeta. run_cycle. rewrite Hin. cbn [negb]. rewrite Hp, Hpost, Hthrow.
  cbn -[ErrorHandler.handleError].
  unfold ErrorHandler.handleError, JS.bind, JS.of_completion. rewrite Hcls.
  cbn. destruct w as [s p es ch]. cbn. repeat split. eexists; reflexivity.
Qed.

Lemma runHealthCheck_incomplete_response_throws_witness :
  (DataGenerator.isWithinMonitoringHours
     (Config.startHour Samples.default_config) (Config.endHour Samples.default_config)
     (currentHour Samples2.incomplete) = true /\
   isPaused (initial Samples.T0) = false /\
   complete_response Samples.no_code = false) /\
  channel (snd (runHealthCheck Samples.default_config Samples2.incomplete
                  (initial Samples.T0))) = [] /\
  isHealthy (w_stats (snd (runHealthCheck Samples.default_config Samples2.incomplete
                             (initial Samples.T0)))) = false.
Proof.
  split; [repeat split|].
  destruct (runHealthCheck_incomplete_response_throws Samples.default_config
              Samples2.incomplete (initial Samples.T0)
              {| For4Service.data := Samples.no_code; For4Service.responseTime := 420 |})
    as (_ & Hch & _ & _ & _ & Hh & _); try reflexivity.
  split; [exact Hch|exact Hh].
Defined.

(** A successful check of a healthy monitor sends nothing: it counts the
    check and its response time, leaves the monitor healthy, and empties
    the error state. *)
Theorem runHealthCheck_healthy_success_is_silent (cfg : Config.monitor) (c : cycle)
    (w : world) (r : For4Service.result) :
  DataGenerator.isWithinMonitoringHours
    (Config.startHour cfg) (Config.endHour cfg) (currentHour c) = true ->
  isPaused w = false ->
  For4Service.createPixTransaction (trackingId c) (post c) = JS.Normal r ->
  isHealthy (w_stats w) = true ->
  let w' := snd (runHealthCheck cfg c w) in
  fst (runHealthCheck cfg c w) = JS.Normal tt /\
  channel w' = channel w /\
  isHealthy (w_stats w') = true /\
  successfulChecks (w_stats w') = successfulChecks (w_stats w) + 1 /\
  failedChecks (w_stats w') = failedChecks (w_stats w) /\
  totalResponseTime (w_stats w')
    = totalResponseTime (w_stats w) + For4Service.r_responseTime r /\
  errors (w_stats w') = errors (w_stats w) /\
  errorState w' = ∅.
Proof.
  intros Hin Hp Hr Hh. cbv zeta. run_cycle.
  rewrite Hin. cbn [negb]. rewrite Hp, Hr. cbn. rewrite Hh. cbn.
  repeat split. exact Hh.
Qed.

Lemma runHealthCheck_healthy_success_is_silent_witness :
  (DataGenerator.isWithinMonitoringHours
     (Config.startHour Samples.default_config) (Config.endHour Samples.default_config)
     (currentHour Samples.passing) = true /\
   isPaused (initial Samples.T0) = false /\
   isHealthy (w_stats (initial Samples.T0)) = true) /\
  channel (snd (runHealthCheck Samples.default_config Samples.passing
                  (initial Samples.T0))) = [] /\
  totalResponseTime (w_stats (snd (runHealthCheck Samples.default_config Samples.passing
                                     (initial Samples.T0)))) = 420.
Proof.
  split; [repeat split|].
  destruct (runHealthCheck_healthy_success_is_silent Samples.default_config
              Samples.passing (initial Samples.T0)
              {| For4Service.success := true;
                 For4Service.r_data := Samples.complete;
                 For4Service.r_responseTime := 420 |})
    as (_ & Hch & _ & _ & _ & Ht & _); try reflexivity.
  split; [exact Hch|exact Ht].
Defined.

End CycleOutcomes.

(** ** The error state across calls *)

Section ErrorState.
Import ErrorObject ErrorHandler Failures.

Lemma handleError_entry_facts (cfg : Config.monitor) (error : ErrorObject.t) (ctx : context)
    (now clock : Z) (st : gmap ErrorTypes entry) (K : ErrorTypes) :
  classifyError error = JS.Normal K ->
  let st' := snd (handleError cfg error ctx now clock st) in
  st' !! K
    = Some {| count := consecutiveCount st K + 1;
              firstOccurrence := default now (firstSeenAt st K);
              lastOccurrence := now;
              lastNotification :=
                if due cfg clock (lastNotifiedAt st K) then Some now
                else lastNotifiedAt st K |} /\
  (forall k, k <> K -> st' !! k = st !! k).
Proof.
  intros HK. cbv zeta.
  unfold handleError, formatErrorMessage, JS.bind, JS.of_completion, JS.modify,
    JS.get, JS.ret.
  rewrite HK.
  unfold shouldSendNotification, due, lastNotifiedAt, consecutiveCount, firstSeenAt.
  destruct (st !! K) as [en|] eqn:Hst.
  - rewrite lookup_alter_eq, Hst. cbn.
    destruct (lastNotification en) as [t|] eqn:Hln; cbn.
    + destruct (Z.eqb_spec t 0) as [->|Hne]; cbn.
      * rewrite !lookup_alter_eq, Hst. cbn.
           unfold set_lastNotification, set_lastOccurrence, set_count. cbn. rewrite ?Hln. split; [reflexivity|].
        intros k Hk. rewrite !lookup_alter_ne by congruence. reflexivity.
      * destruct (cooldownMs cfg <=? clock - t) eqn:Hcd; cbn.
        -- rewrite !lookup_alter_eq, Hst. cbn.
           unfold set_lastNotification, set_lastOccurrence, set_count. cbn. rewrite ?Hln. split; [reflexivity|].
           intros k Hk. rewrite !lookup_alter_ne by congruence. reflexivity.
        -- rewrite !lookup_alter_eq, Hst. cbn.
           unfold set_lastNotification, set_lastOccurrence, set_count. cbn. rewrite ?Hln. split; [reflexivity|].
           intros k Hk. rewrite !lookup_alter_ne by congruence. reflexivity.
    + rewrite !lookup_alter_eq, Hst. cbn.
           unfold set_lastNotification, set_lastOccurrence, set_count. cbn. rewrite ?Hln. split; [reflexivity|].
      intros k Hk. rewrite !lookup_alter_ne by congruence. reflexivity.
  - rewrite lookup_alter_eq, lookup_insert_eq. cbn.
    rewrite !lookup_alter_eq, lookup_insert_eq. cbn.
    unfold set_lastNotification, set_lastOccurrence, set_count. cbn. split; [reflexivity|].
    intros k Hk. rewrite !lookup_alter_ne, lookup_insert_ne by congruence. reflexivity.
Qed.

(** The entry of kind K after handleError processed a failure of kind K:
    the count is one more than before (1 for a new entry), the first
    occurrence is kept (set to now for a new entry), the last occurrence is
    now, and the notification time is now when the call notifies and the
    previous one otherwise. Entries of other kinds are untouched. *)
Theorem handleError_entry (cfg : Config.monitor) (error : ErrorObject.t) (ctx : context)
    (now clock : Z) (st : gmap ErrorTypes entry) (K : ErrorTypes) :
  classifyError error = JS.Normal K ->
  let st' := snd (handleError cfg error ctx now clock st) in
  st' !! K
    = Some {| count := consecutiveCount st K + 1;
              firstOccurrence := default now (firstSeenAt st K);
              lastOccurrence := now;
              lastNotification :=
                if due cfg clock (lastNotifiedAt st K) then Some now
                else lastNotifiedAt st K |} /\
  (forall k, k <> K -> st' !! k = st !! k).
Proof. exact (handleError_entry_facts cfg error ctx now clock st K). Qed.

Lemma handleError_entry_witness :
  classifyError Samples.timed_out = JS.Normal TIMEOUT_ERROR /\
  snd (handleError Samples.default_config Samples.timed_out Samples2.ctx
         (Samples.T0 + 300000) (Samples.T0 + 300000) Samples2.notified) !! TIMEOUT_ERROR
  = Some {| count := 2; firstOccurrence := Samples.T0;
            lastOccurrence := Samples.T0 + 300000;
            lastNotification := Some Samples.T0 |}.
Proof.
  split; [reflexivity|].
  exact (proj1 (handleError_entry Samples.default_config Samples.timed_out Samples2.ctx
                  (Samples.T0 + 300000) (Samples.T0 + 300000) Samples2.notified
                  TIMEOUT_ERROR eq_refl)).
Defined.

(** clearErrorState with a kind removes that kind's entry only; without
    one it removes all. Either way the next failure of a cleared kind
    starts over: it notifies whatever the cooldown, reports count 1, and
    its first occurrence is the time of that failure. *)
Theorem clearErrorState_then_handleError (cfg : Config.monitor) (error : ErrorObject.t)
    (ctx : context) (now clock : Z) (st : gmap ErrorTypes entry) (K : ErrorTypes)
    (which : option ErrorTypes) :
  classifyError error = JS.Normal K ->
  which = None \/ which = Some K ->
  let cleared := snd (clearErrorState which st) in
  (forall k, cleared !! k = match which with
                            | None => None
                            | Some K' => if decide (k = K') then None else st !! k
                            end) /\
  exists h st',
    handleError cfg error ctx now clock cleared = (JS.Normal h, st') /\
    shouldNotify h = true /\
    errorCount h = 1 /\
    firstSeenAt st' K = Some now /\
    lastNotifiedAt st' K = Some now.
Proof.
  intros HK Hwhich. cbv zeta.
  remember (snd (clearErrorState which st)) as cleared eqn:Hcl.
  assert (Hlook : forall k, cleared !! k = match which with
                                           | None => None
                                           | Some K' => if decide (k = K') then None
                                                        else st !! k
                                           end).
  { intros k. rewrite Hcl. unfold clearErrorState, JS.modify. cbn.
    destruct which as [K'|]; [|apply lookup_empty].
    destruct (decide (k = K')) as [->|Hne];
      [apply lookup_delete_eq|apply lookup_delete_ne; congruence]. }
  assert (HKnone : cleared !! K = None).
  { rewrite Hlook. destruct Hwhich as [->| ->]; [reflexivity|].
    destruct (decide (K = K)); [reflexivity|contradiction]. }
  split; [exact Hlook|].
  destruct (handleError_step cfg error ctx now clock cleared K HK)
    as (h & st' & Hrun & _ & Hdue & Hcount & _ & Hlast & _ & _).
  pose proof (handleError_entry_facts cfg error ctx now clock cleared K HK) as [Hentry _].
  rewrite Hrun in Hentry. cbn [snd] in Hentry.
  assert (Hn : lastNotifiedAt cleared K = None)
    by (unfold lastNotifiedAt; rewrite HKnone; reflexivity).
  assert (Hs : shouldNotify h = true) by (rewrite Hdue, Hn; reflexivity).
  exists h, st'. split; [exact Hrun|]. split; [exact Hs|].
  split; [rewrite Hcount; unfold consecutiveCount; rewrite HKnone; reflexivity|].
  split.
  - unfold firstSeenAt. rewrite Hentry. cbn. unfold firstSeenAt. rewrite HKnone.
    reflexivity.
  - rewrite Hlast, Hs. reflexivity.
Qed.

Lemma clearErrorState_then_handleError_witness :
  (classifyError Samples.timed_out = JS.Normal TIMEOUT_ERROR /\
   (Some TIMEOUT_ERROR = None \/ Some TIMEOUT_ERROR = Some TIMEOUT_ERROR) /\
   consecutiveCount Samples2.notified TIMEOUT_ERROR = 1) /\
  exists h st',
    handleError Samples.default_config Samples.timed_out Samples2.ctx
      (Samples.T0 + 60000) (Samples.T0 + 60000)
      (snd (clearErrorState (Some TIMEOUT_ERROR) Samples2.notified))
      = (JS.Normal h, st') /\
    shouldNotify h = true /\ errorCount h = 1.
Proof.
  split; [repeat split; right; reflexivity|].
  destruct (clearErrorState_then_handleError Samples.default_config Samples.timed_out
              Samples2.ctx (Samples.T0 + 60000) (Samples.T0 + 60000) Samples2.notified
              TIMEOUT_ERROR (Some TIMEOUT_ERROR) eq_refl (or_intror eq_refl))
    as (_ & h & st' & Hrun & Hs & Hc & _).
  exists h, st'. repeat split; assumption.
Defined.

(** After a notification of kind K at a (non-zero) time t0, any number of
    further failures of K whose cooldown clock is less than the cooldown
    past t0 are all handled without a notification; each raises the
    consecutive count by one and the notification time stays t0. *)
Theorem handleAll_throttled (cfg : Config.monitor) (ctx : context) (K : ErrorTypes)
    (fs : list failure) (st : gmap ErrorTypes entry) (t0 : Z) :
  lastNotifiedAt st K = Some t0 ->
  t0 <> 0 ->
  Forall (fun f => classifyError (f_error f) = JS.Normal K /\
                   f_clock f - t0 < cooldownMs cfg) fs ->
  let out := handleAll cfg ctx fs st in
  length (fst out) = length fs /\
  forallb silent (fst out) = true /\
  consecutiveCount (snd out) K = consecutiveCount st K + Z.of_nat (length fs) /\
  lastNotifiedAt (snd out) K = Some t0.
Proof.
  intros Hlast Ht0 Hall. cbv zeta. revert st Hlast.
  induction Hall as [|f fs [HK Hclock] _ IH]; intros st Hlast.
  - cbn. repeat split; [lia|exact Hlast].
  - cbn [handleAll].
    destruct (handleError_step cfg (f_error f) ctx (f_now f) (f_clock f) st K HK)
      as (h & s1 & Hrun & _ & Hdue & _ & Hcount & Hl & _ & _).
    rewrite Hrun.
    assert (Hs : shouldNotify h = false).
    { rewrite Hdue, Hlast. unfold due.
      destruct (Z.eqb_spec t0 0); [contradiction|]. cbn. apply Z.leb_gt. exact Hclock. }
    rewrite Hs, Hlast in Hl.
    specialize (IH s1 Hl).
    destruct (handleAll cfg ctx fs s1) as [rs s2]. cbn [fst snd] in *.
    destruct IH as (Hlen & Hsil & Hc & Hn).
    cbn [length forallb silent]. rewrite Hs, Hsil. cbn.
    repeat split; [lia| |exact Hn].
    rewrite Hc, Hcount. lia.
Qed.

Lemma handleAll_throttled_witness :
  (lastNotifiedAt Samples2.notified TIMEOUT_ERROR = Some Samples.T0 /\
   Samples.T0 <> 0 /\
   Forall (fun f => classifyError (f_error f) = JS.Normal TIMEOUT_ERROR /\
                    f_clock f - Samples.T0 < cooldownMs Samples.default_config)
          Samples2.repeats) /\
  forallb silent (fst (handleAll Samples.default_config Samples2.ctx Samples2.repeats
                         Samples2.notified)) = true /\
  consecutiveCount (snd (handleAll Samples.default_config Samples2.ctx Samples2.repeats
                           Samples2.notified)) TIMEOUT_ERROR = 5.
Proof.
  assert (H1 : lastNotifiedAt Samples2.notified TIMEOUT_ERROR = Some Samples.T0)
    by reflexivity.
  assert (H2 : Samples.T0 <> 0) by discriminate.
  assert (H3 : Forall (fun f => classifyError (f_error f) = JS.Normal TIMEOUT_ERROR /\
                               f_clock f - Samples.T0 < cooldownMs Samples.default_config)
                      Samples2.repeats)
    by (repeat constructor).
  split; [repeat split; assumption|].
  destruct (handleAll_throttled Samples.default_config Samples2.ctx TIMEOUT_ERROR
              Samples2.repeats Samples2.notified Samples.T0 H1 H2 H3)
    as (_ & Hsil & Hc & _).
  split; [exact Hsil|]. rewrite Hc. reflexivity.
Defined.

End ErrorState.

(** ** Classification and validation *)

Section Rules.
Import ErrorObject ErrorHandler.

(** The status an error carries, if it has a response with one. *)
Lemma classifyError_by_status (error : ErrorObject.t) (m : string) :
  message error = Some m ->
  classifyError error
  = JS.Normal
      (if code_is error "ECONNABORTED" || JS.includes m "timeout" then TIMEOUT_ERROR
       else if code_is error "ENOTFOUND" || code_is error "ECONNREFUSED" then NETWORK_ERROR
       else match response_of error ≫= status with
            | Some s => if (s =? 401) || (s =? 403) then AUTH_ERROR
                        else if 400 <=? s then API_ERROR else UNKNOWN_ERROR
            | None => UNKNOWN_ERROR
            end).
Proof.
  intros Hm. unfold classifyError. rewrite Hm.
  destruct (code_is error "ECONNABORTED"); [reflexivity|]. cbn [orb].
  destruct (JS.includes m "timeout"); [reflexivity|].
  destruct (code_is error "ENOTFOUND" || code_is error "ECONNREFUSED"); [reflexivity|].
  destruct (response_of error) as [r|]; [|reflexivity]. cbn.
  destruct (status r) as [s|]; [|reflexivity].
  destruct ((s =? 401) || (s =? 403)); [reflexivity|].
  destruct (Z.leb_spec 400 s), (Z.ltb_spec s 500), (Z.leb_spec 500 s);
    cbn; try reflexivity; lia.
Qed.

Ltac decide_table :=
  cbn [orb];
  repeat match goal with
         | |- _ /\ _ => split
         | |- _ <-> _ => split
         | |- _ -> _ => intro
         | H : _ /\ _ |- _ => destruct H
         | H : _ \/ _ |- _ => destruct H
         | H : exists _, _ |- _ => destruct H
         | H : _ = _ |- _ => discriminate H
         | H : Some _ = Some _ |- _ => injection H as H; subst
         end;
  try reflexivity; try lia; try contradiction;
  try (left; reflexivity); try (right; reflexivity);
  try (eexists; split; [reflexivity|repeat split; lia]);
  try (right; eexists; split; [reflexivity|lia]).

(** The rules of classifyError in the order they apply. A connection
    abort is a timeout even on an error without a message. With a message:
    a timeout indication (the abort code, or the word timeout in the
    message) wins over everything; then a DNS or connection-refused code;
    then HTTP 401 and 403 as authentication errors; then every other status
    from 400 up, 5xx included, as API error; an error is UNKNOWN_ERROR
    exactly when none of these applies, that is when it has no status or a
    status below 400. *)
Theorem classifyError_rules (error : ErrorObject.t) :
  (code_is error "ECONNABORTED" = true -> classifyError error = JS.Normal TIMEOUT_ERROR) /\
  (forall m, message error = Some m ->
     let timeout := code_is error "ECONNABORTED" || JS.includes m "timeout" in
     let network := code_is error "ENOTFOUND" || code_is error "ECONNREFUSED" in
     let st := response_of error ≫= status in
     (classifyError error = JS.Normal TIMEOUT_ERROR <-> timeout = true) /\
     (classifyError error = JS.Normal NETWORK_ERROR <-> timeout = false /\ network = true) /\
     (classifyError error = JS.Normal AUTH_ERROR <->
        timeout = false /\ network = false /\ (st = Some 401 \/ st = Some 403)) /\
     (classifyError error = JS.Normal API_ERROR <->
        timeout = false /\ network = false /\
        exists s, st = Some s /\ 400 <= s /\ s <> 401 /\ s <> 403) /\
     (classifyError error = JS.Normal UNKNOWN_ERROR <->
        timeout = false /\ network = false /\
        (st = None \/ exists s, st = Some s /\ s < 400))).
Proof.
  split.
  - intros Hc. unfold classifyError. rewrite Hc. reflexivity.
  - intros m Hm. cbv zeta. rewrite (classifyError_by_status error m Hm).
    destruct (code_is error "ECONNABORTED" || JS.includes m "timeout");
      [decide_table|].
    destruct (code_is error "ENOTFOUND" || code_is error "ECONNREFUSED");
      [decide_table|].
    destruct (response_of error ≫= status) as [s|]; [|decide_table].
    destruct (Z.eqb_spec s 401) as [->|H401]; [decide_table|].
    destruct (Z.eqb_spec s 403) as [->|H403]; [decide_table|].
    destruct (Z.leb_spec 400 s); decide_table.
Qed.

Lemma classifyError_rules_witness :
  (message Samples2.unavailable = Some "Request failed with status code 503" /\
   code_is Samples.timed_out "ECONNABORTED" = true) /\
  classifyError Samples2.unavailable = JS.Normal API_ERROR /\
  classifyError Samples.timed_out = JS.Normal TIMEOUT_ERROR.
Proof.
  split; [split; reflexivity|].
  split.
  - apply (proj2 (classifyError_rules Samples2.unavailable)
             "Request failed with status code 503" eq_refl).
    split; [reflexivity|]. split; [reflexivity|].
    exists 503. repeat split; lia.
  - apply (proj1 (classifyError_rules Samples.timed_out)). reflexivity.
Defined.

Lemma validatePixResponse_accepts_complete_facts (d : For4Service.pixData) :
  (For4Service.validatePixResponse d = JS.Normal tt <-> complete_response d = true) /\
  (forall e, For4Service.validatePixResponse d = JS.Throw e ->
     missingFields e
       = List.filter (fun f => negb (JS.truthy (For4Service.field d f)))
                     ["id"; "status"; "pixCode"; "pixQrCode"] /\
     missingFields e <> [] /\
     type e = Some (if JS.truthy (For4Service.pixCode d) && JS.truthy (For4Service.pixQrCode d)
                    then "INVALID_RESPONSE" else "NO_PIX_CODE")).
Proof.
  unfold For4Service.validatePixResponse, complete_response, For4Service.requiredFields.
  split.
  - unfold For4Service.field.
    cbn [List.filter String.eqb Ascii.eqb Bool.eqb andb].
    destruct (JS.truthy (For4Service.id d)), (JS.truthy (For4Service.status_of d)),
             (JS.truthy (For4Service.pixCode d)), (JS.truthy (For4Service.pixQrCode d));
      cbn; split; intros H; try reflexivity; discriminate.
  - intros e.
    remember (List.filter (fun f => negb (JS.truthy (For4Service.field d f)))
                          ["id"; "status"; "pixCode"; "pixQrCode"]) as missing eqn:Hmiss.
    destruct (Z.ltb_spec 0 (Z.of_nat (length missing))) as [Hpos|Hz]; [|discriminate].
    intros [= <-]. cbn [missingFields type]. split; [reflexivity|]. split.
    + intros Hnil. rewrite Hnil in Hpos. cbn in Hpos. lia.
    + destruct (JS.truthy (For4Service.pixCode d)),
               (JS.truthy (For4Service.pixQrCode d)); reflexivity.
Qed.

(** validatePixResponse returns exactly for the responses whose four
    required fields are all truthy. Otherwise it throws an error that lists
    the falsy fields in the order id, status, pixCode, pixQrCode, and whose
    type is NO_PIX_CODE when a payment-code field is among them and
    INVALID_RESPONSE when none is. *)
Theorem validatePixResponse_accepts_complete (d : For4Service.pixData) :
  (For4Service.validatePixResponse d = JS.Normal tt <-> complete_response d = true) /\
  (forall e, For4Service.validatePixResponse d = JS.Throw e ->
     missingFields e
       = List.filter (fun f => negb (JS.truthy (For4Service.field d f)))
                     ["id"; "status"; "pixCode"; "pixQrCode"] /\
     missingFields e <> [] /\
     type e = Some (if JS.truthy (For4Service.pixCode d) && JS.truthy (For4Service.pixQrCode d)
                    then "INVALID_RESPONSE" else "NO_PIX_CODE")).
Proof. exact (validatePixResponse_accepts_complete_facts d). Qed.

Lemma validatePixResponse_accepts_complete_witness :
  complete_response Samples.complete = true /\
  For4Service.validatePixResponse Samples.complete = JS.Normal tt.
Proof.
  split; [reflexivity|].
  apply (proj1 (validatePixResponse_accepts_complete Samples.complete)). reflexivity.
Defined.

(** createPixTransaction returns exactly when the HTTP call returned and
    the response is complete, and then hands back the response data and its
    response time unchanged. Whatever it throws is a plain object tagged
    with the tracking id and isFor4Error that keeps the code, the response
    and the type of the original error; the message survives only if it
    was enumerable on the original. *)
Theorem createPixTransaction_outcomes (tid : string)
    (post : JS.completion thrown For4Service.httpResponse) :
  (forall r, For4Service.createPixTransaction tid post = JS.Normal r <->
     exists response, post = JS.Normal response /\
       complete_response (For4Service.data response) = true /\
       r = {| For4Service.success := true;
              For4Service.r_data := For4Service.data response;
              For4Service.r_responseTime := For4Service.responseTime response |}) /\
  (forall e, For4Service.createPixTransaction tid post = JS.Throw e ->
     proto_of e = PlainObject /\ trackingId e = Some tid /\ isFor4Error e = true /\
     exists original,
       (post = JS.Throw original \/
        exists response, post = JS.Normal response /\
          For4Service.validatePixResponse (For4Service.data response) = JS.Throw original) /\
       code e = code original /\ response_of e = response_of original /\
       type e = type original /\
       message e = (if message_enumerable original then message original else None)).
Proof.
  unfold For4Service.createPixTransaction. split.
  - intros r. destruct post as [response|original].
    + pose proof (proj1 (validatePixResponse_accepts_complete_facts (For4Service.data response)))
        as Hiff.
      destruct (For4Service.validatePixResponse (For4Service.data response)) as [[]|e].
      * split.
        -- intros [= <-]. exists response. split; [reflexivity|].
           split; [apply Hiff; reflexivity|reflexivity].
        -- intros (response' & [= <-] & _ & ->). reflexivity.
      * split; [discriminate|].
        intros (response' & [= <-] & Hc & _). apply Hiff in Hc. discriminate.
    + split; [discriminate|]. intros (response & H & _). discriminate.
  - intros e. destruct post as [response|original].
    + destruct (For4Service.validatePixResponse (For4Service.data response)) as [[]|e0] eqn:Hv;
        [discriminate|].
      intros [= <-]. cbn. repeat split. exists e0. split; [|repeat split].
      right. exists response. split; [reflexivity|exact Hv].
    + intros [= <-]. cbn. repeat split. exists original. split; [|repeat split].
      left. reflexivity.
Qed.

Lemma createPixTransaction_outcomes_witness :
  For4Service.createPixTransaction "TRK-5" (JS.Throw Samples.timed_out)
    = JS.Throw (spread_with Samples.timed_out "TRK-5") /\
  message (spread_with Samples.timed_out "TRK-5") = Some "timeout of 30000ms exceeded" /\
  trackingId (spread_with Samples.timed_out "TRK-5") = Some "TRK-5".
Proof.
  split; [reflexivity|].
  destruct (proj2 (createPixTransaction_outcomes "TRK-5" (JS.Throw Samples.timed_out))
              (spread_with Samples.timed_out "TRK-5") eq_refl)
    as (_ & Htid & _ & original & _ & _).
  split; [reflexivity|exact Htid].
Defined.

End Rules.

(** ** Hourly buckets *)

Section Buckets.
Import PerformanceTracker Invariants.

Lemma hourKey_sub (now : Z) (i : nat) :
  hourKey (now - Z.of_nat i * msPerHour) = hourKey now - Z.of_nat i.
Proof.
  unfold hourKey.
  replace (now - Z.of_nat i * msPerHour) with (now + (- Z.of_nat i) * msPerHour) by lia.
  rewrite Z.div_add by (unfold msPerHour; lia). lia.
Qed.

Lemma rev_seq (n : nat) :
  rev (seq 0 n) = List.map (fun j => (n - 1 - j)%nat) (seq 0 n).
Proof.
  induction n as [|n IH]; [reflexivity|].
  rewrite seq_S at 1. rewrite rev_app_distr. cbn [rev app Nat.add].
  rewrite IH. cbn [seq List.map]. f_equal; try lia.
  rewrite <- seq_shift, List.map_map. apply List.map_ext. intros j. lia.
Qed.

Lemma hourStat_at_key (t : tracker) (now : Z) (i : nat) :
  hs_key (hourStat_at t now i) = hourKey now - Z.of_nat i.
Proof.
  unfold hourStat_at. rewrite hourKey_sub.
  destruct (hourly (metrics_of t) !! _); reflexivity.
Qed.

(** getHourlyStats returns exactly as many entries as hours were asked
    for; they stand for consecutive hours, oldest first, the last one being
    the current hour; an hour without a bucket gets an all-zero entry, and
    an hour with a bucket shows that bucket's count, rounded average,
    minimum, maximum and failures. *)
Theorem getHourlyStats_series (t : tracker) (hours : nat) (now : Z) :
  length (getHourlyStats t hours now) = hours /\
  List.map hs_key (getHourlyStats t hours now)
    = List.map (fun j => hourKey now - Z.of_nat (hours - 1 - j)) (seq 0 hours) /\
  Forall (fun s =>
            hs_hour s = hs_key s mod 24 /\
            match hourly (metrics_of t) !! hs_key s with
            | Some b =>
                hs_count s = hb_count b /\
                hs_average s = JS.round_div (hb_totalTime b) (hb_count b) /\
                hs_min s = default 0 (hb_minTime b) /\
                hs_max s = hb_maxTime b /\
                hs_failures s = hb_failures b
            | None =>
                hs_count s = 0 /\ hs_average s = 0 /\ hs_min s = 0 /\
                hs_max s = 0 /\ hs_failures s = 0
            end)
         (getHourlyStats t hours now).
Proof.
  unfold getHourlyStats. split; [|split].
  - rewrite length_map, length_rev, length_seq. reflexivity.
  - rewrite List.map_map, rev_seq, List.map_map.
    apply List.map_ext. intros j. apply hourStat_at_key.
  - apply List.Forall_map, List.Forall_forall. intros i _.
    unfold hourStat_at.
    destruct (hourly (metrics_of t) !! hourKey (now - Z.of_nat i * msPerHour))
      as [b|] eqn:Hb; cbn [hs_key hs_hour hs_count hs_average hs_min hs_max hs_failures];
      rewrite Hb; repeat split.
Qed.

Lemma filter_by_key {A} (P : Z -> Prop) `{!forall k, Decision (P k)}
    (m : gmap Z A) (k : Z) :
  filter (fun kv : Z * A => P kv.1) m !! k = if decide (P k) then m !! k else None.
Proof.
  apply option_eq. intros x. rewrite map_lookup_filter_Some. cbn.
  destruct (decide (P k)); split; intros Hx; try tauto; try discriminate.
Qed.

Lemma recordResponseTime_hourly_facts (t : tracker) (r : recording) (k : Z) :
  let old := hourly (metrics_of t) !! k in
  hourly (metrics_of (record t r)) !! k
    = (if retained (rec_clock r) k
       then if decide (k = hourKey (rec_now r))
            then Some (record_hourly (sample_of r) old)
            else old
       else None) /\
  hb_count (record_hourly (sample_of r) old) = default 0 (hb_count <$> old) + 1 /\
  hb_totalTime (record_hourly (sample_of r) old)
    = default 0 (hb_totalTime <$> old) + rec_responseTime r /\
  hb_failures (record_hourly (sample_of r) old)
    = default 0 (hb_failures <$> old) + (if rec_success r then 0 else 1).
Proof.
  cbv zeta. split.
  - unfold record, recordResponseTime, cleanOldData, retained. cbn [metrics_of hourly].
    match goal with
    | |- filter _ ?m !! _ = _ =>
        pose proof (filter_by_key
                      (fun key => rec_clock r - 7 * msPerDay <= key * msPerHour) m k) as Hf
    end.
    cbv beta in Hf. rewrite Hf. clear Hf.
    destruct (Z.leb_spec (rec_clock r - 7 * msPerDay) (k * msPerHour)) as [Hle|Hgt].
    + destruct (decide (rec_clock r - 7 * msPerDay <= k * msPerHour)); [|lia].
      destruct (decide (k = hourKey (rec_now r))) as [->|Hne].
      * rewrite lookup_insert_eq. reflexivity.
      * rewrite lookup_insert_ne by congruence. reflexivity.
    + destruct (decide (rec_clock r - 7 * msPerDay <= k * msPerHour)); [lia|reflexivity].
  - unfold record_hourly.
    destruct (hourly (metrics_of t) !! k) as [b|]; cbn;
      destruct (rec_success r); repeat split; lia.
Qed.

(** What recordResponseTime leaves under an hour key: nothing when the
    hour starts more than seven days before the clean-up clock (even for
    the hour just written); otherwise, for the hour of the call, the former
    bucket with one more sample, the response time added to the total, and
    one more failure when the call reports one (a bucket created from zero
    when there was none), and for any other hour the bucket as it was. *)
Theorem recordResponseTime_hourly (t : tracker) (r : recording) (k : Z) :
  let old := hourly (metrics_of t) !! k in
  hourly (metrics_of (record t r)) !! k
    = (if retained (rec_clock r) k
       then if decide (k = hourKey (rec_now r))
            then Some (record_hourly (sample_of r) old)
            else old
       else None) /\
  hb_count (record_hourly (sample_of r) old) = default 0 (hb_count <$> old) + 1 /\
  hb_totalTime (record_hourly (sample_of r) old)
    = default 0 (hb_totalTime <$> old) + rec_responseTime r /\
  hb_failures (record_hourly (sample_of r) old)
    = default 0 (hb_failures <$> old) + (if rec_success r then 0 else 1).
Proof. exact (recordResponseTime_hourly_facts t r k). Qed.

(** From the constructor's empty metrics, every hourly bucket that exists
    after any sequence of calls holds at least one sample, and its failures
    are between 0 and its count; so the average getHourlyStats computes
    never divides by zero. *)
Theorem hourly_buckets_ok (cap : nat) (rs : list recording) (k : Z) (b : hourlyBucket) :
  hourly (metrics_of (recordAll (with_capacity cap) rs)) !! k = Some b ->
  bucket_ok b.
Proof.
  revert k b. induction rs as [|r rs IH] using rev_ind; intros k b.
  - cbn. rewrite lookup_empty. discriminate.
  - rewrite recordAll_snoc.
    destruct (recordResponseTime_hourly_facts (recordAll (with_capacity cap) rs) r k)
      as (Hlook & Hc & _ & Hf).
    rewrite Hlook.
    destruct (retained (rec_clock r) k); [|discriminate].
    destruct (decide (k = hourKey (rec_now r))) as [->|Hne]; [|apply IH].
    intros [= <-]. unfold bucket_ok. rewrite Hc, Hf.
    destruct (hourly (metrics_of (recordAll (with_capacity cap) rs)) !! hourKey (rec_now r))
      as [b0|] eqn:Hb0; cbn.
    + destruct (IH _ _ Hb0) as (H1 & H2 & H3). destruct (rec_success r); lia.
    + destruct (rec_success r); lia.
Qed.

Lemma hourly_buckets_ok_witness :
  hourly (metrics_of (recordAll (with_capacity 1000) Samples.gap26))
    !! hourKey Samples.later
  = Some {| hb_count := 1; hb_totalTime := 100; hb_minTime := Some 100;
            hb_maxTime := 100; hb_failures := 0 |} /\
  bucket_ok {| hb_count := 1; hb_totalTime := 100; hb_minTime := Some 100;
               hb_maxTime := 100; hb_failures := 0 |}.
Proof.
  assert (H : hourly (metrics_of (recordAll (with_capacity 1000) Samples.gap26))
                !! hourKey Samples.later
              = Some {| hb_count := 1; hb_totalTime := 100; hb_minTime := Some 100;
                        hb_maxTime := 100; hb_failures := 0 |})
    by (vm_compute; reflexivity).
  split; [exact H|].
  exact (hourly_buckets_ok 1000 Samples.gap26 (hourKey Samples.later) _ H).
Defined.

End Buckets.

(** ** Windows of the analysis *)

Section Windows.
Import PerformanceTracker.

Lemma fold_left_agree {A B} (f g : A -> B -> A) (l : list B) (a : A) :
  (forall x b, In b l -> f x b = g x b) -> fold_left f l a = fold_left g l a.
Proof.
  revert a. induction l as [|b l IH]; intros a Hfg; [reflexivity|].
  cbn. rewrite (Hfg a b) by (left; reflexivity).
  apply IH. intros x b' Hin. apply Hfg. right. exact Hin.
Qed.

Lemma fold_left_fixed {A B} (f : A -> B -> A) (l : list B) (a : A) :
  (forall x b, In b l -> f x b = x) -> fold_left f l a = a.
Proof.
  revert a. induction l as [|b l IH]; intros a Hf; [reflexivity|].
  cbn. rewrite (Hf a b) by (left; reflexivity).
  apply IH. intros x b' Hin. apply Hf. right. exact Hin.
Qed.

(** calculateRecentAverage (hours, offset) reads the hourly buckets of the
    hours offset, ..., offset + hours - 1 before the current one and
    nothing else: two trackers that agree on those buckets get the same
    average, and when none of those hours has a bucket the average is 0. *)
Theorem calculateRecentAverage_window (t t' : tracker) (hours offset : nat) (now : Z) :
  ((forall i : nat, (offset <= i < offset + hours)%nat ->
      hourly (metrics_of t) !! (hourKey now - Z.of_nat i)
      = hourly (metrics_of t') !! (hourKey now - Z.of_nat i)) ->
   calculateRecentAverage t hours offset now = calculateRecentAverage t' hours offset now) /\
  ((forall i : nat, (offset <= i < offset + hours)%nat ->
      hourly (metrics_of t) !! (hourKey now - Z.of_nat i) = None) ->
   calculateRecentAverage t hours offset now = 0%Q).
Proof.
  split.
  - intros Hagree. unfold calculateRecentAverage, recent_totals.
    rewrite (fold_left_agree _
               (fun (acc : Z * Z) (i : nat) =>
                  match hourly (metrics_of t') !! hourKey (now - Z.of_nat i * msPerHour) with
                  | Some hourData =>
                      if 0 <? hb_count hourData
                      then (acc.1 + hb_totalTime hourData, acc.2 + hb_count hourData)
                      else acc
                  | None => acc
                  end)); [reflexivity|].
    intros acc i Hin. apply in_seq in Hin.
    rewrite hourKey_sub, Hagree by lia. reflexivity.
  - intros Hnone. unfold calculateRecentAverage, recent_totals.
    rewrite fold_left_fixed; [reflexivity|].
    intros acc i Hin. apply in_seq in Hin.
    rewrite hourKey_sub, Hnone by lia. reflexivity.
Qed.

Lemma calculateRecentAverage_window_witness :
  (forall i : nat, (6 <= i < 6 + 18)%nat ->
     hourly (metrics_of (recordAll fresh Samples.gap26))
       !! (hourKey Samples.later - Z.of_nat i) = None) /\
  calculateRecentAverage (recordAll fresh Samples.gap26) 18 6 Samples.later = 0%Q.
Proof.
  assert (H : forall i : nat, (6 <= i < 6 + 18)%nat ->
            hourly (metrics_of (recordAll fresh Samples.gap26))
              !! (hourKey Samples.later - Z.of_nat i) = None).
  { intros i Hi.
    assert (Hin : In i (seq 6 18)) by (apply in_seq; lia).
    clear Hi. revert i Hin. apply (proj1 (List.Forall_forall _ _)).
    cbn [seq].
    repeat (apply List.Forall_cons; [vm_compute; reflexivity|]). apply List.Forall_nil. }
  split; [exact H|].
  exact (proj2 (calculateRecentAverage_window (recordAll fresh Samples.gap26)
                  (recordAll fresh Samples.gap26) 18 6 Samples.later) H).
Defined.

Lemma In_take {A} (n : nat) (l : list A) (x : A) : In x (take n l) -> In x l.
Proof.
  intros Hin. rewrite <- (take_drop n l). apply in_or_app. left. exact Hin.
Qed.

(** The analysis reports at most three critical hours. Each is one of the
    last 24 hours, taken in chronological order, that has at least one
    sample and whose rounded average is more than one and a half times the
    overall rounded average. *)
Theorem criticalHours_at_most_three (t : tracker) (now1 now2 now3 : Z) :
  let a := getPerformanceAnalysis t now1 now2 now3 in
  (length (criticalHours a) <= 3)%nat /\
  Forall (fun entry =>
            exists s, In s (getHourlyStats t 24 now1) /\
                      entry = (hs_hour s, hs_average s) /\
                      0 < hs_count s /\
                      3 * average (getCurrentStats t) < 2 * hs_average s)
         (criticalHours a) /\
  criticalHours a
    = take 3 (List.map (fun s => (hs_hour s, hs_average s))
                (List.filter (fun s => (3 * average (getCurrentStats t) <? 2 * hs_average s)
                                       && (0 <? hs_count s))
                             (getHourlyStats t 24 now1))).
Proof.
  cbv zeta. unfold getPerformanceAnalysis.
  destruct (trend_of _ _) as [tr pct]. cbn [criticalHours]. unfold JS.slice_first.
  split; [|split; [|reflexivity]].
  - rewrite length_take. lia.
  - apply List.Forall_forall. intros entry Hin.
    apply In_take, in_map_iff in Hin. destruct Hin as (s & Hs & Hin).
    apply filter_In in Hin. destruct Hin as [Hin Hc].
    apply andb_true_iff in Hc. destruct Hc as [Havg Hcount].
    exists s. split; [exact Hin|]. split; [symmetry; exact Hs|].
    split; [apply Z.ltb_lt, Hcount|apply Z.ltb_lt, Havg].
Qed.

End Windows.

(** ** Percentiles against the extremes *)

Section PercentileBounds.
Import PerformanceTracker.

Lemma calculatePercentile_member (l : list Z) (p x : Z) :
  l <> [] -> calculatePercentile l p = Some x -> x ∈ l.
Proof.
  intros Hl. unfold calculatePercentile.
  destruct (Z.eqb_spec (Z.of_nat (length l)) 0) as [Hz|_].
  - destruct l; [contradiction|discriminate].
  - destruct (percentile_rank p (length l)); [|discriminate].
    cbv zeta. apply list_elem_of_lookup_2.
Qed.

Lemma buffer_within_history (cap : nat) (rs : list recording) (x : Z) :
  (0 < cap)%nat ->
  x ∈ List.map responseTime (samples (current_of (recordAll (with_capacity cap) rs))) ->
  x ∈ List.map rec_responseTime rs.
Proof.
  intros Hcap. rewrite recordAll_samples by (simpl; lia).
  unfold Spec.most_recent. cbn [samples current_of with_capacity metrics_of
                                        empty_metrics m_current app].
  set (k := (length (List.map sample_of rs) - cap)%nat).
  intros Hin.
  assert (Hall : List.map rec_responseTime rs
                 = List.map responseTime (take k (List.map sample_of rs))
                   ++ List.map responseTime (drop k (List.map sample_of rs))).
  { rewrite <- List.map_app, take_drop, List.map_map. reflexivity. }
  rewrite Hall. apply elem_of_app. right. exact Hin.
Qed.

(** After recording any non-empty sequence from the empty state, the
    analysis reports three percentiles, each one of the recorded response
    times, ordered between the best and the worst time it reports:
    bestTime <= p50 <= p95 <= p99 <= worstTime. *)
Theorem percentiles_between_extremes (rs : list recording) (now1 now2 now3 : Z) :
  rs <> [] ->
  let a := getPerformanceAnalysis (recordAll fresh rs) now1 now2 now3 in
  exists x y z,
    p50 a = Some x /\ p95 a = Some y /\ p99 a = Some z /\
    bestTime a <= x /\ x <= y /\ y <= z /\ z <= worstTime a /\
    x ∈ List.map rec_responseTime rs /\
    y ∈ List.map rec_responseTime rs /\
    z ∈ List.map rec_responseTime rs.
Proof.
  intros Hne. cbv zeta.
  set (t := recordAll fresh rs).
  assert (Hsamples : samples (current_of t) = Spec.most_recent 1000 (List.map sample_of rs)).
  { subst t. rewrite recordAll_samples by (simpl; lia). reflexivity. }
  assert (Hlen : (0 < length (samples (current_of t)) <= 1000)%nat).
  { rewrite Hsamples, most_recent_length, length_map.
    destruct rs; [contradiction|cbn [length]; lia]. }
  destruct (sortedSamples_sorted t) as [Hs Hp].
  pose proof (sortedSamples_length t) as Hsl.
  assert (Hl : sortedSamples t <> []).
  { intros Hnil. rewrite Hnil in Hsl. simpl in Hsl. lia. }
  assert (Hcap : (length (sortedSamples t) <= 1000)%nat) by lia.
  assert (X50 : rank_is_exact 50 (length (sortedSamples t)) = true)
    by (apply reported_rank_is_exact; [left; reflexivity|exact Hcap]).
  assert (X95 : rank_is_exact 95 (length (sortedSamples t)) = true)
    by (apply reported_rank_is_exact; [right; left; reflexivity|exact Hcap]).
  assert (X99 : rank_is_exact 99 (length (sortedSamples t)) = true)
    by (apply reported_rank_is_exact; [right; right; reflexivity|exact Hcap]).
  destruct (calculatePercentile_mono _ 50 95 Hs Hl ltac:(lia) ltac:(lia) X50 X95)
    as (x & y & Hx & Hy & Hxy).
  destruct (calculatePercentile_mono _ 95 99 Hs Hl ltac:(lia) ltac:(lia) X95 X99)
    as (y' & z & Hy' & Hz & Hyz).
  assert (y' = y) by congruence. subst y'.
  assert (Hmem : forall p v, calculatePercentile (sortedSamples t) p = Some v ->
                             v ∈ List.map rec_responseTime rs).
  { intros p v Hv. apply (buffer_within_history 1000); [lia|].
    fold fresh. fold t. rewrite <- Hp.
    exact (calculatePercentile_member _ p v Hl Hv). }
  destruct (recordAll_current 1000 rs) as (Hc & _ & _ & Hmin & Hmax & _ & _).
  fold fresh in Hc, Hmin, Hmax. fold t in Hc, Hmin, Hmax.
  destruct (Hmin Hne) as (m & Hm & _ & Hall).
  assert (Hbest : forall v, v ∈ List.map rec_responseTime rs -> m <= v /\ v <= maxTime (current_of t)).
  { intros v Hv. rewrite Forall_forall in Hall, Hmax. split; [apply Hall|apply Hmax]; exact Hv. }
  exists x, y, z.
  unfold getPerformanceAnalysis. destruct (trend_of _ _) as [tr pct].
  cbn [p50 p95 p99 bestTime worstTime].
  fold t. unfold getCurrentStats. fold (current_of t). rewrite Hc.
  destruct (Z.eqb_spec (Z.of_nat (length rs)) 0) as [Hzero|_];
    [destruct rs; [contradiction|cbn [length] in Hzero; lia]|].
  cbn [cs_min cs_max]. rewrite Hm. cbn [min_or_zero default].
  pose proof (Hbest x (Hmem 50 x Hx)). pose proof (Hbest z (Hmem 99 z Hz)).
  unfold id. repeat split; try assumption; try lia; eauto.
Qed.

Lemma percentiles_between_extremes_witness :
  Samples.five <> [] /\
  exists x y z,
    p50 (getPerformanceAnalysis (recordAll fresh Samples.five)
           Samples.later Samples.later Samples.later) = Some x /\
    p99 (getPerformanceAnalysis (recordAll fresh Samples.five)
           Samples.later Samples.later Samples.later) = Some z /\
    100 <= x /\ x <= y /\ y <= z /\ z <= 500.
Proof.
  assert (Hne : Samples.five <> []) by discriminate.
  split; [exact Hne|].
  destruct (percentiles_between_extremes Samples.five Samples.later Samples.later
              Samples.later Hne)
    as (x & y & z & Hx & _ & Hz & Hb & Hxy & Hyz & Hw & _).
  exists x, y, z. repeat split; assumption.
Defined.

End PercentileBounds.

(** ** Generated CPF numbers *)

Section GeneratedCPF.
Import CPF.

Lemma verifier_range (sum : Z) : 0 <= verifier sum <= 9.
Proof.
  unfold verifier.
  pose proof (Z.mod_pos_bound sum 11 ltac:(lia)).
  destruct (Z.ltb_spec (sum mod 11) 2); lia.
Qed.

(** The verifier the code computes is the check digit of the usual rule. *)
Lemma verifier_is_check_digit (sum : Z) : verifier sum = ((10 * sum) mod 11) mod 10.
Proof.
  unfold verifier.
  rewrite <- Z.mul_mod_idemp_r by lia.
  pose proof (Z.mod_pos_bound sum 11 ltac:(lia)) as Hr.
  set (r := sum mod 11) in *.
  assert (Hcases : r = 0 \/ r = 1 \/ r = 2 \/ r = 3 \/ r = 4 \/ r = 5 \/ r = 6 \/
                   r = 7 \/ r = 8 \/ r = 9 \/ r = 10) by lia.
  repeat (destruct Hcases as [-> | Hcases]; [reflexivity|]).
  rewrite Hcases. reflexivity.
Qed.

(** generateValidCPF yields eleven decimal digits whose two verifier
    digits satisfy the check of a CPF number, whatever the nine random
    digits are. *)
Theorem generateValidCPF_is_valid (randomDigits : nat -> Z) :
  (forall i, (i < 9)%nat -> 0 <= randomDigits i <= 8) ->
  valid (generateDigits randomDigits) = true /\
  String.length (generateValidCPF randomDigits) = 11%nat /\
  take 9 (generateDigits randomDigits) = List.map randomDigits (seq 0 9).
Proof.
  intros Hd.
  assert (H0 := Hd 0%nat ltac:(lia)). assert (H1 := Hd 1%nat ltac:(lia)).
  assert (H2 := Hd 2%nat ltac:(lia)). assert (H3 := Hd 3%nat ltac:(lia)).
  assert (H4 := Hd 4%nat ltac:(lia)). assert (H5 := Hd 5%nat ltac:(lia)).
  assert (H6 := Hd 6%nat ltac:(lia)). assert (H7 := Hd 7%nat ltac:(lia)).
  assert (H8 := Hd 8%nat ltac:(lia)).
  unfold generateValidCPF, generateDigits.
  cbn [seq List.map app take].
  set (v1 := verifier _).
  cbn [app take].
  set (v2 := verifier _).
  pose proof (verifier_range (weighted 10
     [randomDigits 0%nat; randomDigits 1%nat; randomDigits 2%nat; randomDigits 3%nat;
      randomDigits 4%nat; randomDigits 5%nat; randomDigits 6%nat; randomDigits 7%nat;
      randomDigits 8%nat])) as Hv1.
  fold v1 in Hv1.
  pose proof (verifier_range (weighted 11
     [randomDigits 0%nat; randomDigits 1%nat; randomDigits 2%nat; randomDigits 3%nat;
      randomDigits 4%nat; randomDigits 5%nat; randomDigits 6%nat; randomDigits 7%nat;
      randomDigits 8%nat; v1])) as Hv2.
  fold v2 in Hv2.
  split; [|split; reflexivity].
  unfold valid, check_digit. cbn [length Nat.eqb take lookup list_lookup default andb].
  rewrite <- !verifier_is_check_digit. fold v1. fold v2.
  rewrite !Z.eqb_refl. cbn [andb].
  rewrite !andb_true_r.
  apply (proj2 (forallb_forall _ _)). intros d Hin. cbn [In] in Hin.
  apply andb_true_iff. split; [apply Z.leb_le|apply Z.leb_le];
    repeat (destruct Hin as [<- | Hin]; [lia|]); contradiction.
Qed.

Lemma generateValidCPF_is_valid_witness :
  (forall i, (i < 9)%nat -> 0 <= Samples2.draws i <= 8) /\
  valid (generateDigits Samples2.draws) = true /\
  generateValidCPF Samples2.draws = "38405162771".
Proof.
  assert (H : forall i, (i < 9)%nat -> 0 <= Samples2.draws i <= 8).
  { intros i _. unfold Samples2.draws.
    pose proof (Nat.mod_upper_bound (i * 5 + 3) 9 ltac:(lia)). lia. }
  split; [exact H|].
  split; [exact (proj1 (generateValidCPF_is_valid Samples2.draws H))|].
  vm_compute. reflexivity.
Defined.

End GeneratedCPF.

(** ** The health flag and the average response time over a run *)

Section Runs.
Import Monitor Invariants Outcomes.

Ltac run_cycle :=
  unfold runHealthCheck, JS.bind, JS.get, JS.try_catch, JS.of_completion,
    JS.modify, JS.ret, on_errorState, JS.zoom, notifyRecovery.

Lemma runHealthCheck_flags (cfg : Config.monitor) (c : cycle) (w : world) :
  isPaused w = false ->
  isPaused (snd (runHealthCheck cfg c w)) = false /\
  isHealthy (w_stats (snd (runHealthCheck cfg c w)))
    = (if in_hours cfg c then succeeds c else isHealthy (w_stats w)).
Proof.
  intros Hp. unfold in_hours, succeeds. run_cycle.
  destruct (DataGenerator.isWithinMonitoringHours _ _ _); [|split; [exact Hp|reflexivity]].
  cbn [negb]. rewrite Hp.
  destruct (For4Service.createPixTransaction _ _) as [r|error].
  - cbn. destruct (isHealthy (w_stats w)) eqn:Hh; cbn;
      split; first [exact Hp | reflexivity | exact Hh].
  - cbn -[ErrorHandler.handleError record_error].
    destruct (ErrorHandler.handleError _ _ _ _ _ _) as [[h|e] st'].
    + cbn -[record_error].
      destruct (ErrorHandler.shouldNotify h); split; first [exact Hp | reflexivity].
    + cbn. split; first [exact Hp | reflexivity].
Qed.

(** While the monitor is not paused, after any run of cycles the health
    flag is the outcome of the last cycle that fell inside the monitoring
    hours (true for a success, false for a failure, also for one that ended
    in an exception), and the flag from before when no cycle ran. *)
Theorem runAll_health (cfg : Config.monitor) (cs : list cycle) (w : world) :
  isPaused w = false ->
  isHealthy (w_stats (runAll cfg cs w)) = health_after cfg cs (isHealthy (w_stats w)) /\
  isPaused (runAll cfg cs w) = false.
Proof.
  revert w. induction cs as [|c cs IH]; intros w Hp; [split; [reflexivity|exact Hp]|].
  destruct (runHealthCheck_flags cfg c w Hp) as [Hp' Hh].
  cbn [runAll]. unfold health_after. cbn [fold_left].
  destruct (IH _ Hp') as [IHh IHp]. rewrite IHh, Hh. split; [reflexivity|exact IHp].
Qed.

Lemma runAll_health_witness :
  isPaused (initial Samples.T0) = false /\
  isHealthy (w_stats (runAll Samples.default_config
                        [Samples.failing; Samples.passing; Samples2.incomplete]
                        (initial Samples.T0))) = false /\
  isHealthy (w_stats (runAll Samples2.night_config
                        [Samples.failing; Samples.passing; Samples2.midday]
                        (initial Samples.T0))) = true.
Proof.
  split; [reflexivity|]. split.
  - rewrite (proj1 (runAll_health Samples.default_config
                      [Samples.failing; Samples.passing; Samples2.incomplete]
                      (initial Samples.T0) eq_refl)).
    reflexivity.
  - rewrite (proj1 (runAll_health Samples2.night_config
                      [Samples.failing; Samples.passing; Samples2.midday]
                      (initial Samples.T0) eq_refl)).
    reflexivity.
Defined.

Lemma runHealthCheck_times (cfg : Config.monitor) (c : cycle) (w : world) (lo hi : Z) :
  match MonitorControl.success_time c with
  | Some rt => lo <= rt <= hi
  | None => True
  end ->
  times_within lo hi w -> times_within lo hi (snd (runHealthCheck cfg c w)).
Proof.
  unfold MonitorControl.success_time. intros Hc Hw. run_cycle.
  destruct (DataGenerator.isWithinMonitoringHours _ _ _); [|exact Hw].
  cbn [negb]. destruct (isPaused w); [exact Hw|].
  destruct Hw as (Hs & Hlo & Hhi).
  destruct (For4Service.createPixTransaction _ _) as [r|error].
  - cbn. destruct (isHealthy (w_stats w)); unfold times_within; cbn;
      repeat split; nia.
  - cbn -[ErrorHandler.handleError record_error].
    destruct (ErrorHandler.handleError _ _ _ _ _ _) as [[h|e] st'].
    + cbn -[record_error].
      destruct (ErrorHandler.shouldNotify h); unfold times_within; cbn;
        repeat split; assumption.
    + unfold times_within. cbn. repeat split; assumption.
Qed.

Lemma round_div_between (a n lo hi : Z) :
  0 < n -> lo * n <= a -> a <= hi * n -> lo <= JS.round_div a n <= hi.
Proof.
  intros Hn Hlo Hhi. unfold JS.round_div. split.
  - apply Z.div_le_lower_bound; nia.
  - assert ((2 * a + n) / (2 * n) < hi + 1); [|lia].
    apply Z.div_lt_upper_bound; nia.
Qed.

(** calculateAverageResponseTime is 0 while no check has succeeded, and
    otherwise lies between the shortest and the longest response time of
    the successful checks: if every successful cycle of a run took between
    lo and hi, so does the average. *)
Theorem calculateAverageResponseTime_bounds (cfg : Config.monitor) (cs : list cycle)
    (start lo hi : Z) :
  Forall (fun c => match MonitorControl.success_time c with
                   | Some rt => lo <= rt <= hi
                   | None => True
                   end) cs ->
  let w := runAll cfg cs (initial start) in
  (successfulChecks (w_stats w) = 0 ->
   MonitorControl.calculateAverageResponseTime w = 0) /\
  (successfulChecks (w_stats w) <> 0 ->
   lo <= MonitorControl.calculateAverageResponseTime w <= hi).
Proof.
  intros Hall. cbv zeta.
  assert (Hgen : forall w, times_within lo hi w -> times_within lo hi (runAll cfg cs w)).
  { induction Hall as [|c cs Hc _ IH]; intros w Hw; [exact Hw|].
    cbn [runAll]. apply IH, runHealthCheck_times; assumption. }
  assert (H0 : times_within lo hi (initial start))
    by (unfold times_within; cbn; repeat split; lia).
  destruct (Hgen _ H0) as (Hs & Hlo & Hhi).
  unfold MonitorControl.calculateAverageResponseTime. split.
  - intros ->. reflexivity.
  - intros Hne.
    destruct (Z.eqb_spec (successfulChecks (w_stats (runAll cfg cs (initial start)))) 0);
      [contradiction|].
    apply round_div_between; lia.
Qed.

Lemma calculateAverageResponseTime_bounds_witness :
  Forall (fun c => match MonitorControl.success_time c with
                   | Some rt => 400 <= rt <= 500
                   | None => True
                   end) [Samples.failing; Samples.passing; Samples.passing] /\
  successfulChecks (w_stats (runAll Samples.default_config
                               [Samples.failing; Samples.passing; Samples.passing]
                               (initial Samples.T0))) <> 0 /\
  400 <= MonitorControl.calculateAverageResponseTime
           (runAll Samples.default_config
              [Samples.failing; Samples.passing; Samples.passing] (initial Samples.T0))
      <= 500.
Proof.
  assert (H : Forall (fun c => match MonitorControl.success_time c with
                               | Some rt => 400 <= rt <= 500
                               | None => True
                               end) [Samples.failing; Samples.passing; Samples.passing]).
  { repeat (apply List.Forall_cons; [vm_compute; try split; try discriminate; exact I|]).
    apply List.Forall_nil. }
  assert (Hne : successfulChecks (w_stats (runAll Samples.default_config
                               [Samples.failing; Samples.passing; Samples.passing]
                               (initial Samples.T0))) <> 0) by (vm_compute; discriminate).
  split; [exact H|]. split; [exact Hne|].
  exact (proj2 (calculateAverageResponseTime_bounds Samples.default_config
                  [Samples.failing; Samples.passing; Samples.passing]
                  Samples.T0 400 500 H) Hne).
Defined.

End Runs.
